(** * Data validation and drift detection of the network-security pipeline

    A shallow embedding of [networksecurity/components/data_validation.py]
    (class [DataValidation]) and the properties its specification states
    about it.

    Conventions of the embedding:
    - Python exceptions are values of [PyException]; a call either returns
      or raises ([Outcome]).
    - The file system, pandas, scipy and the repository's yaml helpers are
      an [Env]: operations on an abstract [World] that may raise.
    - [M] is the state-and-exception monad over the world together with a
      ghost trace of the library calls performed and the exceptions raised.
    - 64-bit floats are [spec_float] (IEEE 754 values with NaN and the
      IEEE comparisons [SFleb], [SFltb]).
    - The calls of [logging.info] build a message and return; they are
      left out. *)

From Stdlib Require Import ZArith Bool.
From Stdlib Require Import Floats.SpecFloat.
From stdpp Require Import gmap strings list fin_maps.

Local Open Scope string_scope.
Local Open Scope list_scope.

(* ===================================================================== *)
(** ** 64-bit floats and their comparisons *)
(* ===================================================================== *)

Module Float64.

Definition float := spec_float.

(** Python [x <= y] and [x < y] on floats: false as soon as one side is
    NaN. *)
Definition le (x y : float) : bool := SFleb x y.
Definition lt (x y : float) : bool := SFltb x y.

Definition is_nan (x : float) : bool :=
  match x with S754_nan => true | _ => false end.

Definition nan : float := S754_nan.

(** [0.05] is the double [0x1.999999999999ap-5]; [1.0] and [0.0]. *)
Definition f0_05 : float := S754_finite false 7205759403792794 (-57).
Definition f1_0 : float := S754_finite false 4503599627370496 (-52).
Definition f0_0 : float := S754_zero false.
Definition f0_01 : float := S754_finite false 5764607523034235 (-59).

(** A rank that orders the non-NaN values the way [SFcompare] does:
    sign class first, then exponent, then mantissa. *)
Definition rank (x : float) : Z * Z * Z :=
  match x with
  | S754_nan => (0, 0, 0)
  | S754_zero _ => (0, 0, 0)
  | S754_infinity true => (-2, 0, 0)
  | S754_infinity false => (2, 0, 0)
  | S754_finite true m e => (-1, - e, - Z.pos m)
  | S754_finite false m e => (1, e, Z.pos m)
  end%Z.

Definition lex_le (a b : Z * Z * Z) : Prop :=
  let '(a1, a2, a3) := a in
  let '(b1, b2, b3) := b in
  (a1 < b1 \/ (a1 = b1 /\ (a2 < b2 \/ (a2 = b2 /\ a3 <= b3))))%Z.

Definition lex_lt (a b : Z * Z * Z) : Prop :=
  let '(a1, a2, a3) := a in
  let '(b1, b2, b3) := b in
  (a1 < b1 \/ (a1 = b1 /\ (a2 < b2 \/ (a2 = b2 /\ a3 < b3))))%Z.

End Float64.

Import Float64.

(* ===================================================================== *)
(** ** Python values, exceptions and outcomes *)
(* ===================================================================== *)

(** Modelled from the spec: the exception class of
    [networksecurity/exception/exception.py] is "a single domain exception
    carrying the original cause"; it is built as
    [NetworkSecurityException(e, sys)] from the exception [e] it wraps.
    [Builtin] stands for every exception derived from [Exception] that
    Python itself or a library raises (FileNotFoundError, KeyError,
    ValueError, TypeError, ...). *)
Inductive PyException : Type :=
| Builtin (exc_type : string) (message : string)
| NetworkSecurityException (error_message : PyException).

(** A call returns a value or raises. *)
Inductive Outcome (A : Type) : Type :=
| Return (v : A)
| Raise (e : PyException).
Arguments Return {A} v.
Arguments Raise {A} e.

Definition obind {A B} (o : Outcome A) (k : A -> Outcome B) : Outcome B :=
  match o with
  | Return v => k v
  | Raise e => Raise e
  end.

(** The exception at the bottom of a chain of wrappers. *)
Fixpoint root_cause (x : PyException) : PyException :=
  match x with
  | Builtin _ _ => x
  | NetworkSecurityException e => root_cause e
  end.

(** [wraps x e]: [x] is [e] inside one or more domain wrappers. *)
Inductive wraps : PyException -> PyException -> Prop :=
| wraps_once e : wraps (NetworkSecurityException e) e
| wraps_more x e : wraps x e -> wraps (NetworkSecurityException x) e.

Definition is_domain_exception (x : PyException) : bool :=
  match x with
  | NetworkSecurityException _ => true
  | Builtin _ _ => false
  end.

(** The two objects that meet in [missing_columns == 0]: a set of column
    names and an int.  Python's [==] between a set and an int is [False]
    whatever their contents ([set.__eq__] and [int.__eq__] both answer
    NotImplemented and the objects are not identical). *)
Inductive PyObj : Type :=
| PySet (s : gset string)
| PyInt (n : Z).

Definition py_eq (a b : PyObj) : bool :=
  match a, b with
  | PySet s1, PySet s2 => bool_decide (s1 = s2)
  | PyInt n1, PyInt n2 => Z.eqb n1 n2
  | PySet _, PyInt _ => false
  | PyInt _, PySet _ => false
  end.

(* ===================================================================== *)
(** ** YAML documents (the schema file) *)
(* ===================================================================== *)

(** The values [yaml.safe_load] builds for a schema file: string scalars,
    sequences and mappings with string keys. *)
#[local] Unset Elimination Schemes.
Inductive YamlValue : Type :=
| YStr (s : string)
| YSeq (items : list YamlValue)
| YMap (entries : list (string * YamlValue)).
#[local] Set Elimination Schemes.

(** The string of one character [c]. *)
Definition char_str (c : Ascii.ascii) : string := String c EmptyString.

Fixpoint chars (s : string) : list string :=
  match s with
  | EmptyString => []
  | String c rest => char_str c :: chars rest
  end.

(** [hash(item)] for an element about to enter a set: strings are
    hashable, lists and dicts are not. *)
Definition hashable (item : YamlValue) : Outcome string :=
  match item with
  | YStr s => Return s
  | YSeq _ => Raise (Builtin "TypeError" "unhashable type: 'list'")
  | YMap _ => Raise (Builtin "TypeError" "unhashable type: 'dict'")
  end.

Fixpoint set_of_items (items : list YamlValue) : Outcome (gset string) :=
  match items with
  | [] => Return ∅
  | item :: rest =>
      obind (hashable item) (fun s =>
      obind (set_of_items rest) (fun acc => Return ({[ s ]} ∪ acc)))
  end.

(** Python's [set(v)]: the elements of a list, the keys of a dict, the
    characters of a string. *)
Definition py_set (v : YamlValue) : Outcome (gset string) :=
  match v with
  | YSeq items => set_of_items items
  | YMap entries => Return (list_to_set (fst <$> entries))
  | YStr s => Return (list_to_set (chars s))
  end.

(* ===================================================================== *)
(** ** pandas data frames *)
(* ===================================================================== *)

Inductive Dtype : Type := Int64 | Float64 | BoolDtype | ObjectDtype | Datetime64.

(** [select_dtypes(include=['number'])] keeps integer and float columns. *)
Definition is_number (d : Dtype) : bool :=
  match d with
  | Int64 | Float64 => true
  | BoolDtype | ObjectDtype | Datetime64 => false
  end.

Inductive Cell : Type :=
| CInt (z : Z)
| CFloat (f : float)
| CBool (b : bool)
| CStr (s : string).

Record Series : Type := { dtype : Dtype; values : list Cell }.

(** A data frame is its columns in order, each with its label. *)
Record DataFrame : Type := { items : list (string * Series) }.

(** [df.columns] *)
Definition columns (df : DataFrame) : list string := fst <$> items df.

(** What [df[column]] evaluates to: a Series when one column carries the
    label, a frame of all of them when the label is repeated. *)
Inductive Selection : Type :=
| OneSeries (s : Series)
| SubFrame (cols : list Series).

Definition labelled (column : string) (df : DataFrame) : list Series :=
  snd <$> filter (fun it => fst it = column) (items df).

(** [df[column]] raises KeyError when no column carries the label. *)
Definition getitem (df : DataFrame) (column : string) : Outcome Selection :=
  match labelled column df with
  | [] => Raise (Builtin "KeyError" column)
  | [s] => Return (OneSeries s)
  | cols => Return (SubFrame cols)
  end.

(** [df.select_dtypes(include=['number'])] *)
Definition select_dtypes_number (df : DataFrame) : DataFrame :=
  {| items := filter (fun it => is_number (dtype (snd it)) = true) (items df) |}.

(** scipy's [KstestResult]: what [ks_2samp] returns. *)
Record KstestResult : Type := { statistic : float; pvalue : float }.

(** One entry of the drift report, and the report: a dict keyed by column
    label. *)
Record DriftEntry : Type := { p_value : float; drift_status : bool }.

Abbreviation Report := (gmap string DriftEntry).

(* ===================================================================== *)
(** ** The entities exchanged with the rest of the pipeline *)
(* ===================================================================== *)

(** Modelled from the spec: [networksecurity/entity/artifact_entity.py] and
    [config_entity.py] are not under src; the fields are those the spec
    lists and the code reads or passes by keyword. *)
Record DataIngestionArtifact : Type := {
  trained_file_path : string;
  test_file_path : string
}.

Record DataValidationConfig : Type := {
  cfg_valid_train_file_path : string;
  cfg_valid_test_file_path : string;
  cfg_invalid_train_file_path : string;
  cfg_invalid_test_file_path : string;
  cfg_drift_report_file_path : string
}.

(** [validation_status] holds whatever the caller passes: a bool or
    [None]; the two invalid paths are optional. *)
Record DataValidationArtifact : Type := {
  validation_status : option bool;
  valid_train_file_path : string;
  valid_test_file_path : string;
  invalid_train_file_path : option string;
  invalid_test_file_path : option string;
  drift_report_file_path : string
}.

(* ===================================================================== *)
(** ** The environment and the monad of effects *)
(* ===================================================================== *)

(** The collaborators of the component.  Every operation may raise, and a
    raising operation may still have changed the world. *)
Record Env : Type := {
  World : Type;
  pd_read_csv : string -> World -> World * Outcome DataFrame;
  (** [df.to_csv(path, index=..., header=...)] *)
  to_csv : DataFrame -> string -> bool -> bool -> World -> World * Outcome unit;
  (** [os.makedirs(path, exist_ok=...)] *)
  os_makedirs : string -> bool -> World -> World * Outcome unit;
  os_path_dirname : string -> string;
  read_yaml_file : string -> World -> World * Outcome (gmap string YamlValue);
  (** [write_yaml_file(file_path=..., content=...)] *)
  write_yaml_file : string -> Report -> World -> World * Outcome unit;
  ks_2samp : Selection -> Selection -> Outcome KstestResult;
  SCHEMA_FILE_PATH : string
}.

(** Ghost trace: the library calls that touch the world, in order, and
    every exception a library raised. *)
Inductive Event : Type :=
| EvReadCsv (path : string)
| EvReadYaml (path : string)
| EvMakedirs (path : string) (exist_ok : bool)
| EvWriteYaml (path : string) (content : Report)
| EvToCsv (path : string) (df : DataFrame) (index header : bool)
| EvRaise (e : PyException).

Section Effects.
Context (env : Env).

Record State : Type := { world : World env; trace : list Event }.

Definition M (A : Type) : Type := State -> State * Outcome A.

Definition ret {A} (v : A) : M A := fun s => (s, Return v).

Definition bind {A B} (m : M A) (k : A -> M B) : M B :=
  fun s =>
    match m s with
    | (s', Return v) => k v s'
    | (s', Raise e) => (s', Raise e)
    end.

(** [try: body / except Exception as e: raise NetworkSecurityException(e,sys)] *)
Definition try_except {A} (body : M A) : M A :=
  fun s =>
    match body s with
    | (s', Return v) => (s', Return v)
    | (s', Raise e) => (s', Raise (NetworkSecurityException e))
    end.

Definition raised {A} (r : Outcome A) : list Event :=
  match r with
  | Return _ => []
  | Raise e => [EvRaise e]
  end.

(** A library call on the world, logged with its exception if any. *)
Definition call {A} (ev : Event) (op : World env -> World env * Outcome A) : M A :=
  fun s =>
    let '(w', r) := op (world s) in
    ({| world := w'; trace := trace s ++ ev :: raised r |}, r).

(** A library computation that leaves the world alone: nothing happens
    unless it raises. *)
Definition pure_call {A} (r : Outcome A) : M A :=
  fun s =>
    match r with
    | Return v => (s, Return v)
    | Raise e => ({| world := world s; trace := trace s ++ [EvRaise e] |}, Raise e)
    end.

End Effects.

Arguments ret {env A} v.
Arguments bind {env A B} m k.
Arguments try_except {env A} body.
Arguments call {env A} ev op.
Arguments pure_call {env A} r.
Arguments world {env} s.
Arguments trace {env} s.

Notation "x <- m ;; k" := (bind m (fun x => k))
  (at level 20, m at level 99, k at level 200, right associativity).
Notation "m ;;; k" := (bind m (fun _ => k))
  (at level 20, k at level 200, right associativity).

(* ===================================================================== *)
(** ** class DataValidation *)
(* ===================================================================== *)

(** The default of [threshold] in [detect_dataset_drift]. *)
Definition default_threshold : float := f0_05.

(** Lines 87-91: the verdict on one column, from the p-value of the test. *)
Definition is_found (threshold pvalue : float) : bool :=
  if le threshold pvalue then false else true.

(** The attributes [__init__] sets on [self]. *)
Record DataValidation : Type := {
  data_ingestion_artifact : DataIngestionArtifact;
  data_validation_config : DataValidationConfig;
  _schema_config : gmap string YamlValue
}.

Section DataValidation.
Context (env : Env).

(** [DataValidation.__init__] *)
Definition init (ingestion : DataIngestionArtifact)
    (config : DataValidationConfig) : M env DataValidation :=
  try_except (
    schema <- call (EvReadYaml (SCHEMA_FILE_PATH env))
                   (read_yaml_file env (SCHEMA_FILE_PATH env));;
    ret {| data_ingestion_artifact := ingestion;
           data_validation_config := config;
           _schema_config := schema |}).

Definition read_data (file_path : string) : M env DataFrame :=
  try_except (call (EvReadCsv file_path) (pd_read_csv env file_path)).

Definition validate_number_of_columns (self : DataValidation)
    (dataframe : DataFrame) : M env bool :=
  try_except (
    let number_of_columns := size (_schema_config self) in
    if Nat.eqb (length (columns dataframe)) number_of_columns
    then ret true
    else ret false).

Definition validate_numerical_columns (self : DataValidation)
    (dataframe : DataFrame) : M env bool :=
  try_except (
    let expected_numerical_columns :=
      default (YSeq []) (_schema_config self !! "numerical_columns") in
    let actual_numerical_columns := columns (select_dtypes_number dataframe) in
    expected <- pure_call (py_set expected_numerical_columns);;
    let missing_columns := expected ∖ list_to_set actual_numerical_columns in
    if py_eq (PySet missing_columns) (PyInt 0)
    then ret true
    else ret false).

(** The [for column in base_df.columns] loop of [detect_dataset_drift],
    with the two variables it updates, [status] and [report]. *)
Fixpoint drift_loop (cols : list string) (base_df current_df : DataFrame)
    (threshold : float) (status : bool) (report : Report)
    : M env (bool * Report) :=
  match cols with
  | [] => ret (status, report)
  | column :: rest =>
      d1 <- pure_call (getitem base_df column);;
      d2 <- pure_call (getitem current_df column);;
      is_sample_dist <- pure_call (ks_2samp env d1 d2);;
      let status :=
        if le threshold (pvalue is_sample_dist) then status else false in
      let report :=
        <[ column := {| p_value := pvalue is_sample_dist;
                        drift_status := is_found threshold (pvalue is_sample_dist) |} ]>
          report in
      drift_loop rest base_df current_df threshold status report
  end.

(** The function ends after [write_yaml_file]: there is no [return], so
    the call evaluates to [None]. *)
Definition detect_dataset_drift (self : DataValidation)
    (base_df current_df : DataFrame) (threshold : float)
    : M env (option bool) :=
  try_except (
    sr <- drift_loop (columns base_df) base_df current_df threshold true ∅;;
    let report := snd sr in
    let drift_report_file_path :=
      cfg_drift_report_file_path (data_validation_config self) in
    let dir_path := os_path_dirname env drift_report_file_path in
    call (EvMakedirs dir_path true) (os_makedirs env dir_path true);;;
    call (EvWriteYaml drift_report_file_path report)
         (write_yaml_file env drift_report_file_path report);;;
    ret None).

Definition initiate_data_validation (self : DataValidation)
    : M env DataValidationArtifact :=
  try_except (
    let train_file_path := trained_file_path (data_ingestion_artifact self) in
    (* the local [test_file_path], primed: the projection has the name;
       [error_message] is assigned and never read, as in the source *)
    let test_file_path' := test_file_path (data_ingestion_artifact self) in
    train_dataframe <- read_data train_file_path;;
    test_dataframe <- read_data test_file_path';;
    status <- validate_number_of_columns self train_dataframe;;
    let error_message :=
      if negb status
      then Some "Train dataframe does not contain all columns."
      else None in
    status <- validate_number_of_columns self test_dataframe;;
    let error_message :=
      if negb status
      then Some "Test dataframe does not contain all columns."
      else error_message in
    status <- validate_numerical_columns self train_dataframe;;
    let error_message :=
      if negb status
      then Some "Train dataframe does not contain all numerical columns."
      else error_message in
    status <- validate_numerical_columns self test_dataframe;;
    let error_message :=
      if negb status
      then Some "Test dataframe does not contain all numerical columns."
      else error_message in
    status <- detect_dataset_drift self train_dataframe test_dataframe
                default_threshold;;
    let dir_path :=
      os_path_dirname env (cfg_valid_train_file_path (data_validation_config self)) in
    call (EvMakedirs dir_path true) (os_makedirs env dir_path true);;;
    (let path := cfg_valid_train_file_path (data_validation_config self) in
     call (EvToCsv path train_dataframe false true)
          (to_csv env train_dataframe path false true));;;
    (let path := cfg_valid_test_file_path (data_validation_config self) in
     call (EvToCsv path test_dataframe false true)
          (to_csv env test_dataframe path false true));;;
    let data_validation_artifact :=
      {| validation_status := status;
         valid_train_file_path := trained_file_path (data_ingestion_artifact self);
         valid_test_file_path := test_file_path (data_ingestion_artifact self);
         invalid_train_file_path := None;
         invalid_test_file_path := None;
         drift_report_file_path :=
           cfg_drift_report_file_path (data_validation_config self) |} in
    ret data_validation_artifact).

End DataValidation.

(* ===================================================================== *)
(** ** What the specification asks of the structural checks *)
(* ===================================================================== *)

(** These two definitions follow the words of the specification, not the
    code; they are what the code is compared with. *)
Module Spec.

(** The schema file is a mapping holding the list of column definitions
    and the list of the columns expected to be numerical. *)
Definition columns_key : string := "columns".
Definition numerical_columns_key : string := "numerical_columns".

(** [total_column_count]: the length of the schema's full column list. *)
Definition total_column_count (schema : gmap string YamlValue) : nat :=
  match schema !! columns_key with
  | Some (YSeq defs) => length defs
  | _ => 0
  end.

Definition strings_of (v : YamlValue) : list string :=
  match v with
  | YSeq l => omap (fun it => match it with YStr s => Some s | _ => None end) l
  | _ => []
  end.

(** [numerical_column_names]: the set of names under the second key. *)
Definition numerical_column_names (schema : gmap string YamlValue) : gset string :=
  match schema !! numerical_columns_key with
  | Some v => list_to_set (strings_of v)
  | None => ∅
  end.

(** "returns true iff len(dataset.columns) == schema.total_column_count" *)
Definition validate_column_count (dataset : DataFrame)
    (schema : gmap string YamlValue) : bool :=
  Nat.eqb (length (columns dataset)) (total_column_count schema).

(** "returns true iff schema.numerical_column_names is a subset of [the
    set of dataset columns whose values are numeric]" *)
Definition validate_numerical_columns (dataset : DataFrame)
    (schema : gmap string YamlValue) : bool :=
  bool_decide (numerical_column_names schema
                 ⊆ list_to_set (columns (select_dtypes_number dataset))).

End Spec.

(* ===================================================================== *)
(** ** Notions used to state the properties *)
(* ===================================================================== *)

Section Statements.
Context (env : Env).
Implicit Types (s : State env) (self : DataValidation)
  (base_df current_df : DataFrame) (threshold : float)
  (tr : list Event) (x e : PyException).

(** The entry the loop body computes for one column, when both
    selections and the test succeed. *)
Definition column_entry base_df current_df threshold (column : string)
    : option DriftEntry :=
  match getitem base_df column, getitem current_df column with
  | Return d1, Return d2 =>
      match ks_2samp env d1 d2 with
      | Return r =>
          Some {| p_value := pvalue r;
                  drift_status := is_found threshold (pvalue r) |}
      | Raise _ => None
      end
  | _, _ => None
  end.

(** The events of a returning run, in order: the two reads, the report
    directory and the report, the directory of the valid files and the
    two copies. *)
Definition run_events self (train test : DataFrame) (report : Report)
    : list Event :=
  let ingestion := data_ingestion_artifact self in
  let config := data_validation_config self in
  [ EvReadCsv (trained_file_path ingestion);
    EvReadCsv (test_file_path ingestion);
    EvMakedirs (os_path_dirname env (cfg_drift_report_file_path config)) true;
    EvWriteYaml (cfg_drift_report_file_path config) report;
    EvMakedirs (os_path_dirname env (cfg_valid_train_file_path config)) true;
    EvToCsv (cfg_valid_train_file_path config) train false true;
    EvToCsv (cfg_valid_test_file_path config) test false true ].

Definition is_raise (ev : Event) : bool :=
  match ev with
  | EvRaise _ => true
  | _ => false
  end.

(** No library raised during these events. *)
Definition quiet tr : Prop := Forall (fun ev => is_raise ev = false) tr.

(** [x] is [e] itself or [e] inside domain wrappers. *)
Definition carried x e : Prop := x = e \/ wraps x e.

(** The events [tr] of a run and its outcome [r] agree: a run that
    returns met no exception; a run that raises [x] met exactly one
    library exception [e], as its last event (nothing ran after it), and
    [x] carries [e]. *)
Definition outcome_ok {A} (carries : PyException -> PyException -> Prop)
    tr (r : Outcome A) : Prop :=
  match r with
  | Return _ => quiet tr
  | Raise x =>
      exists tr0 e, tr = tr0 ++ [EvRaise e] /\ quiet tr0 /\ carries x e
  end.

Definition propagates {A} (carries : PyException -> PyException -> Prop)
    (m : M env A) : Prop :=
  forall s, exists tr,
    trace (fst (m s)) = trace s ++ tr /\ outcome_ok carries tr (snd (m s)).

(** What C9 asks of one run started in [s]: it returns and no library
    call raised; or it raises [x], exactly one library exception [e] was
    raised, as the last event of the run, [x] is of the domain type,
    wraps [e] and has the innermost cause of [e]. *)
Definition wrapped_or_returned {A} s (run : State env * Outcome A) : Prop :=
  exists tr,
    trace (fst run) = trace s ++ tr
    /\ match snd run with
       | Return _ => quiet tr
       | Raise x =>
           exists tr0 e,
             tr = tr0 ++ [EvRaise e] /\ quiet tr0
             /\ wraps x e /\ is_domain_exception x = true
             /\ root_cause x = root_cause e
       end.

End Statements.

Arguments propagates env {A} carries m.
Arguments outcome_ok {A} carries tr r.
Arguments wrapped_or_returned {env A} s run.

(* ===================================================================== *)
(** ** A concrete environment, for running the code on examples *)
(* ===================================================================== *)

Module Demo.

(** A disk of csv files, at most one yaml schema and the reports
    written so far. *)
Record Disk : Type := {
  csv : list (string * DataFrame);
  schema_file : option (string * gmap string YamlValue);
  yaml_written : list (string * Report)
}.

Fixpoint lookup_csv (path : string) (files : list (string * DataFrame))
    : option DataFrame :=
  match files with
  | [] => None
  | (p, df) :: rest => if String.eqb p path then Some df else lookup_csv path rest
  end.

Definition read_csv (path : string) (d : Disk) : Disk * Outcome DataFrame :=
  match lookup_csv path (csv d) with
  | Some df => (d, Return df)
  | None => (d, Raise (Builtin "FileNotFoundError" path))
  end.

Definition write_csv (df : DataFrame) (path : string) (index header : bool)
    (d : Disk) : Disk * Outcome unit :=
  ({| csv := (path, df) :: csv d;
      schema_file := schema_file d;
      yaml_written := yaml_written d |}, Return tt).

(** Creating the directory named by the empty path fails. *)
Definition makedirs (path : string) (exist_ok : bool) (d : Disk)
    : Disk * Outcome unit :=
  if String.eqb path ""
  then (d, Raise (Builtin "FileNotFoundError" path))
  else (d, Return tt).

(** The part of a path before its last slash. *)
Fixpoint dirname_opt (path : string) : option string :=
  match path with
  | EmptyString => None
  | String c rest =>
      match dirname_opt rest with
      | Some d => Some (String c d)
      | None => if Ascii.eqb c (Ascii.ascii_of_nat 47) then Some EmptyString else None
      end
  end.

Definition dirname (path : string) : string := default "" (dirname_opt path).

Definition read_yaml (path : string) (d : Disk)
    : Disk * Outcome (gmap string YamlValue) :=
  match schema_file d with
  | Some (p, schema) =>
      if String.eqb p path then (d, Return schema)
      else (d, Raise (Builtin "FileNotFoundError" path))
  | None => (d, Raise (Builtin "FileNotFoundError" path))
  end.

Definition write_yaml (path : string) (content : Report) (d : Disk)
    : Disk * Outcome unit :=
  ({| csv := csv d;
      schema_file := schema_file d;
      yaml_written := (path, content) :: yaml_written d |}, Return tt).

Definition cell_is_nan (c : Cell) : bool :=
  match c with
  | CFloat f => is_nan f
  | _ => false
  end.

Definition cell_eqb (a b : Cell) : bool :=
  match a, b with
  | CInt x, CInt y => Z.eqb x y
  | CFloat x, CFloat y => SFeqb x y
  | CBool x, CBool y => Bool.eqb x y
  | CStr x, CStr y => String.eqb x y
  | _, _ => false
  end.

Fixpoint cells_eqb (a b : list Cell) : bool :=
  match a, b with
  | [], [] => true
  | x :: a', y :: b' => cell_eqb x y && cells_eqb a' b'
  | _, _ => false
  end.

(** A stand-in for scipy's test with its observable conventions: empty
    samples are refused, a NaN among the values gives a NaN result (the
    default [nan_policy='propagate']), identical samples give p = 1; every
    other pair of samples is given p = 0.01 here. *)
Definition ks (d1 d2 : Selection) : Outcome KstestResult :=
  match d1, d2 with
  | OneSeries s1, OneSeries s2 =>
      match values s1, values s2 with
      | [], _ | _, [] =>
          Raise (Builtin "ValueError" "Data passed to ks_2samp must not be empty")
      | v1, v2 =>
          if existsb cell_is_nan v1 || existsb cell_is_nan v2
          then Return {| statistic := nan; pvalue := nan |}
          else if cells_eqb v1 v2
          then Return {| statistic := f0_0; pvalue := f1_0 |}
          else Return {| statistic := f1_0; pvalue := f0_01 |}
      end
  | _, _ => Raise (Builtin "ValueError" "samples must be one-dimensional")
  end.

Definition env : Env := {|
  World := Disk;
  pd_read_csv := read_csv;
  to_csv := write_csv;
  os_makedirs := makedirs;
  os_path_dirname := dirname;
  read_yaml_file := read_yaml;
  write_yaml_file := write_yaml;
  ks_2samp := ks;
  SCHEMA_FILE_PATH := "data_schema/schema.yaml"
|}.

(** *** Example data *)

Definition ints (l : list Z) : Series := {| dtype := Int64; values := CInt <$> l |}.
Definition floats (l : list float) : Series :=
  {| dtype := Float64; values := CFloat <$> l |}.
Definition strs (l : list string) : Series :=
  {| dtype := ObjectDtype; values := CStr <$> l |}.

(** Three numeric columns and a text column. *)
Definition people : DataFrame :=
  {| items := [("age", ints [31; 45; 27]%Z);
               ("income", ints [1200; 3400; 2100]%Z);
               ("score", ints [7; 9; 4]%Z);
               ("name", strs ["ann"; "bob"; "cy"])] |}.

(** The same columns, [age] drawn from elsewhere. *)
Definition people_shifted : DataFrame :=
  {| items := [("age", ints [81; 95; 77]%Z);
               ("income", ints [1200; 3400; 2100]%Z);
               ("score", ints [7; 9; 4]%Z);
               ("name", strs ["ann"; "bob"; "cy"])] |}.

(** A column with a missing value, as [read_csv] yields for an empty
    cell. *)
Definition readings : DataFrame :=
  {| items := [("a", floats [f1_0; nan; f0_05])] |}.

(** A schema of four columns that requires [age] and [income] to be
    numerical. *)
Definition people_schema : gmap string YamlValue :=
  list_to_map
    [("columns", YSeq [YMap [("age", YStr "int64")];
                       YMap [("income", YStr "int64")];
                       YMap [("score", YStr "int64")];
                       YMap [("name", YStr "object")]]);
     ("numerical_columns", YSeq [YStr "age"; YStr "income"])].

Definition ingestion : DataIngestionArtifact :=
  {| trained_file_path := "artifacts/ingested/train.csv";
     test_file_path := "artifacts/ingested/test.csv" |}.

Definition config : DataValidationConfig :=
  {| cfg_valid_train_file_path := "artifacts/validated/train.csv";
     cfg_valid_test_file_path := "artifacts/validated/test.csv";
     cfg_invalid_train_file_path := "artifacts/invalid/train.csv";
     cfg_invalid_test_file_path := "artifacts/invalid/test.csv";
     cfg_drift_report_file_path := "artifacts/drift_report/report.yaml" |}.

Definition self : DataValidation :=
  {| data_ingestion_artifact := ingestion;
     data_validation_config := config;
     _schema_config := people_schema |}.

Definition disk (train test : DataFrame) : Disk :=
  {| csv := [("artifacts/ingested/train.csv", train);
             ("artifacts/ingested/test.csv", test)];
     schema_file := Some ("data_schema/schema.yaml", people_schema);
     yaml_written := [] |}.

Definition start (d : Disk) : State env := Build_State env d [].

(** A disk without the test file. *)
Definition disk_no_test : Disk :=
  {| csv := [("artifacts/ingested/train.csv", people)];
     schema_file := Some ("data_schema/schema.yaml", people_schema);
     yaml_written := [] |}.

End Demo.

(* ===================================================================== *)
(** ** Concrete inputs *)
(* ===================================================================== *)

Module Runs.
Import Demo.

(** Thirty-one columns [c], [cc], [ccc], ... and a schema that declares
    them all. *)
Fixpoint label (n : nat) : string :=
  match n with
  | O => "c"
  | S k => String (Ascii.ascii_of_nat 99) (label k)
  end.

Definition labels (n : nat) : list string := label <$> seq 0 n.

Definition wide (n : nat) : DataFrame :=
  {| items := (fun l => (l, ints [0; 1; 0]%Z)) <$> labels n |}.

Definition wide_schema (n : nat) : gmap string YamlValue :=
  list_to_map
    [("columns", YSeq ((fun l => YMap [(l, YStr "int64")]) <$> labels n));
     ("numerical_columns", YSeq (YStr <$> labels n))].

Definition wide_self (n : nat) : DataValidation :=
  {| data_ingestion_artifact := ingestion;
     data_validation_config := config;
     _schema_config := wide_schema n |}.

Definition s0 : State env := start (disk people people).
Definition s_shifted : State env := start (disk people people_shifted).
Definition s_readings : State env := start (disk readings readings).
Definition s_no_test : State env := start disk_no_test.

Definition report_path : string := "artifacts/drift_report/report.yaml".

Definition same : DriftEntry := {| p_value := f1_0; drift_status := false |}.
Definition moved : DriftEntry := {| p_value := f0_01; drift_status := true |}.

(** The reports, built as the loop builds them: [age] first. *)
Definition report_same : Report :=
  <["name" := same]> (<["score" := same]> (<["income" := same]>
    (<["age" := same]> ∅))).

Definition report_shifted : Report :=
  <["name" := same]> (<["score" := same]> (<["income" := same]>
    (<["age" := moved]> ∅))).

Definition report_readings : Report :=
  <["a" := {| p_value := nan; drift_status := true |}]> ∅.

End Runs.

Module Expected.
Import Demo Runs.

(** The events of the run on [people] and [people_shifted]. *)
Definition events_shifted : list Event :=
  [ EvReadCsv "artifacts/ingested/train.csv";
    EvReadCsv "artifacts/ingested/test.csv";
    EvMakedirs "artifacts/drift_report" true;
    EvWriteYaml report_path report_shifted;
    EvMakedirs "artifacts/validated" true;
    EvToCsv "artifacts/validated/train.csv" people false true;
    EvToCsv "artifacts/validated/test.csv" people_shifted false true ].

Definition artifact_shifted : DataValidationArtifact :=
  {| validation_status := None;
     valid_train_file_path := "artifacts/ingested/train.csv";
     valid_test_file_path := "artifacts/ingested/test.csv";
     invalid_train_file_path := None;
     invalid_test_file_path := None;
     drift_report_file_path := report_path |}.

End Expected.

(* ===================================================================== *)
(** ** Notions used to state further properties of the code *)
(* ===================================================================== *)

(** What [self._schema_config.get("numerical_columns", [])] evaluates to. *)
Definition expected_numerical_columns (self : DataValidation) : YamlValue :=
  default (YSeq []) (_schema_config self !! "numerical_columns").

(** The TypeError of the first item of a list that cannot enter a set. *)
Fixpoint first_unhashable (items : list YamlValue) : option PyException :=
  match items with
  | [] => None
  | item :: rest =>
      match hashable item with
      | Raise e => Some e
      | Return _ => first_unhashable rest
      end
  end.

(** The exception of [set(v)], if it raises. *)
Definition set_error (v : YamlValue) : option PyException :=
  match v with
  | YSeq items => first_unhashable items
  | YMap _ | YStr _ => None
  end.

(** The library calls among some events: the events that are not the
    record of an exception. *)
Fixpoint effects (tr : list Event) : list Event :=
  match tr with
  | [] => []
  | ev :: rest => if is_raise ev then effects rest else ev :: effects rest
  end.

(** A state after one more exception. *)
Definition after_raise {env : Env} (s : State env) (e : PyException) : State env :=
  {| world := world s; trace := trace s ++ [EvRaise e] |}.

(** [self] with another schema. *)
Definition with_schema (self : DataValidation) (schema : gmap string YamlValue)
    : DataValidation :=
  {| data_ingestion_artifact := data_ingestion_artifact self;
     data_validation_config := data_validation_config self;
     _schema_config := schema |}.

Module More.
Import Demo Runs.

(** A current frame that lacks three of the base columns. *)
Definition ages_only : DataFrame :=
  {| items := [("age", ints [81; 95; 77]%Z)] |}.

(** [people_shifted] with one more column. *)
Definition people_extra : DataFrame :=
  {| items := items people_shifted ++ [("zip", ints [10; 20; 30]%Z)] |}.

(** A schema whose list of numerical columns holds a nested list. *)
Definition nested_schema : gmap string YamlValue :=
  <["numerical_columns" := YSeq [YStr "age"; YSeq [YStr "income"]]]>
    (<["columns" := YSeq []]> ∅).

Definition self_nested : DataValidation := with_schema self nested_schema.

(** A disk without the train file. *)
Definition disk_no_train : Disk :=
  {| csv := [("artifacts/ingested/test.csv", people)];
     schema_file := Some ("data_schema/schema.yaml", people_schema);
     yaml_written := [] |}.

Definition s_no_train : State env := start disk_no_train.

(** [people] with its first two columns exchanged. *)
Definition people_reordered : DataFrame :=
  {| items := [("income", ints [1200; 3400; 2100]%Z);
               ("age", ints [31; 45; 27]%Z);
               ("score", ints [7; 9; 4]%Z);
               ("name", strs ["ann"; "bob"; "cy"])] |}.

(** A frame of two columns. *)
Definition pair_frame : DataFrame :=
  {| items := [("age", ints [31; 45]%Z); ("income", ints [1200; 3400]%Z)] |}.

End More.



(* ===================================================================== *)
(** ** Facts on the float comparisons *)
(* ===================================================================== *)

Module Float64Facts.

Ltac cmp_cases :=
  repeat match goal with
    | |- context [Z.compare ?a ?b] =>
        destruct (Z.compare_spec a b)
    | |- context [Pos.compare_cont Eq ?a ?b] =>
        change (Pos.compare_cont Eq a b) with (Pos.compare a b);
        destruct (Pos.compare_spec a b)
    end.

Lemma le_rank (x y : float) :
  le x y = true <->
  is_nan x = false /\ is_nan y = false /\ lex_le (rank x) (rank y).
Proof.
  unfold le, SFleb, SFcompare, lex_le.
  destruct x as [sx|sx| |sx mx ex], y as [sy|sy| |sy my ey];
    try destruct sx; try destruct sy; simpl;
    cmp_cases; simpl; split; intros Hyp;
    try discriminate; try (repeat split; try reflexivity; lia);
    try (destruct Hyp as (? & ? & ?); try discriminate; lia).
Qed.

Lemma lt_rank (x y : float) :
  lt x y = true <->
  is_nan x = false /\ is_nan y = false /\ lex_lt (rank x) (rank y).
Proof.
  unfold lt, SFltb, SFcompare, lex_lt.
  destruct x as [sx|sx| |sx mx ex], y as [sy|sy| |sy my ey];
    try destruct sx; try destruct sy; simpl;
    cmp_cases; simpl; split; intros Hyp;
    try discriminate; try (repeat split; try reflexivity; lia);
    try (destruct Hyp as (? & ? & ?); try discriminate; lia).
Qed.

Lemma le_trans (x y z : float) :
  le x y = true -> le y z = true -> le x z = true.
Proof.
  rewrite !le_rank. unfold lex_le.
  destruct (rank x) as [[x1 x2] x3], (rank y) as [[y1 y2] y3],
    (rank z) as [[z1 z2] z3].
  intros (Hx & Hy & Hxy) (_ & Hz & Hyz). repeat split; auto. lia.
Qed.

(** On numbers, [p < t] is the negation of [t <= p]. *)
Lemma lt_not_le (p t : float) :
  is_nan p = false -> is_nan t = false -> lt p t = negb (le t p).
Proof.
  intros Hp Ht.
  destruct (lt p t) eqn:Hlt, (le t p) eqn:Hle; simpl; try reflexivity.
  - apply lt_rank in Hlt. apply le_rank in Hle.
    unfold lex_lt, lex_le in *.
    destruct (rank p) as [[p1 p2] p3], (rank t) as [[t1 t2] t3].
    destruct Hlt as (_ & _ & Hlt), Hle as (_ & _ & Hle). lia.
  - assert (Hlt' : ~ lex_lt (rank p) (rank t)).
    { intros H. assert (lt p t = true) by (apply lt_rank; auto). congruence. }
    assert (Hle' : ~ lex_le (rank t) (rank p)).
    { intros H. assert (le t p = true) by (apply le_rank; auto). congruence. }
    unfold lex_lt, lex_le in *.
    destruct (rank p) as [[p1 p2] p3], (rank t) as [[t1 t2] t3]. lia.
Qed.

Lemma le_nan_r (t : float) : le t nan = false.
Proof. destruct t as [s|s| |s m e]; reflexivity. Qed.

Lemma lt_nan_l (t : float) : lt nan t = false.
Proof. reflexivity. Qed.

End Float64Facts.

Import Float64Facts.

(* ===================================================================== *)
(** ** Running a computation: inversion of normal returns *)
(* ===================================================================== *)

Section MonadLemmas.
Context {env : Env}.
Implicit Types s : State env.

Lemma ret_Return_inv {A} (a v : A) s s' :
  ret a s = (s', Return v) -> s' = s /\ v = a.
Proof. unfold ret. intros H. injection H as <- <-. auto. Qed.

Lemma bind_Return_inv {A B} (m : M env A) (k : A -> M env B) s s' (v : B) :
  bind m k s = (s', Return v) ->
  exists s1 a, m s = (s1, Return a) /\ k a s1 = (s', Return v).
Proof.
  unfold bind. destruct (m s) as [s1 [a|e]]; intros H.
  - exists s1, a. auto.
  - discriminate.
Qed.

Lemma try_except_Return_inv {A} (m : M env A) s s' (v : A) :
  try_except m s = (s', Return v) -> m s = (s', Return v).
Proof.
  unfold try_except. destruct (m s) as [s1 [a|e]]; intros H.
  - exact H.
  - discriminate.
Qed.

Lemma pure_call_Return_inv {A} (r : Outcome A) s s' (v : A) :
  pure_call r s = (s', Return v) -> r = Return v /\ s' = s.
Proof.
  unfold pure_call. destruct r as [a|e]; intros H.
  - injection H as <- <-. auto.
  - discriminate.
Qed.

Lemma call_Return_inv {A} ev (op : World env -> World env * Outcome A) s s' (v : A) :
  call ev op s = (s', Return v) ->
  exists w', op (world s) = (w', Return v)
             /\ s' = {| world := w'; trace := trace s ++ [ev] |}.
Proof.
  unfold call. destruct (op (world s)) as [w' [a|e]]; simpl; intros H.
  - injection H as <- <-. exists w'. auto.
  - discriminate.
Qed.

Lemma bind_Return {A B} (m : M env A) (k : A -> M env B) s s1 a :
  m s = (s1, Return a) -> bind m k s = k a s1.
Proof. unfold bind. intros ->. reflexivity. Qed.

Lemma try_except_Return {A} (m : M env A) s s' (v : A) :
  m s = (s', Return v) -> try_except m s = (s', Return v).
Proof. unfold try_except. intros ->. reflexivity. Qed.

End MonadLemmas.

(** Peel a normally returning run into the runs of its parts. *)
Ltac minv :=
  repeat match goal with
    | H : try_except _ _ = (_, Return _) |- _ =>
        apply try_except_Return_inv in H
    | H : bind _ _ _ = (_, Return _) |- _ =>
        let s1 := fresh "s" in
        let a := fresh "a" in
        let Hm := fresh "Hrun" in
        apply bind_Return_inv in H; destruct H as (s1 & a & Hm & H);
        cbv beta in H
    | H : pure_call _ _ = (_, Return _) |- _ =>
        let E := fresh "Hcall" in
        apply pure_call_Return_inv in H; destruct H as [E ->]
    | H : ret _ _ = (_, Return _) |- _ =>
        apply ret_Return_inv in H; destruct H as [? ?]; simplify_eq
    end.

(* ===================================================================== *)
(** ** The structural checks *)
(* ===================================================================== *)

Section StructuralChecks.
Context (env : Env).
Implicit Types (s : State env) (self : DataValidation) (df : DataFrame).

(** The count the code compares with is the number of top-level keys of
    the schema mapping. *)
Lemma validate_number_of_columns_run self df s :
  validate_number_of_columns env self df s
  = (s, Return (Nat.eqb (length (columns df)) (size (_schema_config self)))).
Proof.
  unfold validate_number_of_columns, try_except.
  destruct (Nat.eqb _ _); reflexivity.
Qed.

Lemma py_eq_set_int (names : gset string) (n : Z) :
  py_eq (PySet names) (PyInt n) = false.
Proof. reflexivity. Qed.

(** When the numerical-column check returns, it returns [False] and has
    touched nothing. *)
Lemma validate_numerical_columns_Return self df s s' b :
  validate_numerical_columns env self df s = (s', Return b) ->
  s' = s /\ b = false.
Proof.
  unfold validate_numerical_columns. intros H. cbv zeta in H. minv.
  rewrite py_eq_set_int in H. minv. auto.
Qed.

(** It returns as soon as the schema's list can be made a set. *)
Lemma validate_numerical_columns_run self df s names :
  py_set (default (YSeq []) (_schema_config self !! "numerical_columns"))
    = Return names ->
  validate_numerical_columns env self df s = (s, Return false).
Proof.
  intros H. unfold validate_numerical_columns, try_except, bind, pure_call.
  cbv zeta. rewrite H. reflexivity.
Qed.

End StructuralChecks.

(* ===================================================================== *)
(** ** The drift loop *)
(* ===================================================================== *)

Section DriftLoop.
Context (env : Env).
Implicit Types (s : State env) (base_df current_df : DataFrame)
  (threshold : float) (report : Report).

(** One turn of the loop, when it gets through. *)
Lemma drift_loop_cons column rest base_df current_df threshold status report
    s s' (out : bool * Report) :
  drift_loop env (column :: rest) base_df current_df threshold status report s
    = (s', Return out) ->
  exists e,
    column_entry env base_df current_df threshold column = Some e
    /\ drift_loop env rest base_df current_df threshold
         (if drift_status e then false else status)
         (<[ column := e ]> report) s
       = (s', Return out).
Proof.
  simpl. intros H. minv. unfold column_entry.
  rewrite Hcall1, Hcall0, Hcall. eexists. split; [reflexivity|].
  simpl. unfold is_found in *.
  destruct (le threshold (pvalue a1)); exact H.
Qed.

(** A loop that returns has raised nothing and touched nothing. *)
Lemma drift_loop_state cols base_df current_df threshold status report
    s s' (out : bool * Report) :
  drift_loop env cols base_df current_df threshold status report s
    = (s', Return out) ->
  s' = s.
Proof.
  revert status report.
  induction cols as [|column rest IH]; intros status report H.
  - simpl in H. minv. reflexivity.
  - apply drift_loop_cons in H. destruct H as (e & _ & H). eauto.
Qed.

(** The report after the loop: the computed entry under every column
    visited, the initial report elsewhere. *)
Lemma drift_loop_report cols base_df current_df threshold status report
    s s' status' report' :
  drift_loop env cols base_df current_df threshold status report s
    = (s', Return (status', report')) ->
  (forall c, c ∈ cols ->
     is_Some (column_entry env base_df current_df threshold c)
     /\ report' !! c = column_entry env base_df current_df threshold c)
  /\ (forall c, c ∉ cols -> report' !! c = report !! c).
Proof.
  revert status report.
  induction cols as [|column rest IH]; intros status report H.
  - simpl in H. minv. split; [intros c Hc; inversion Hc | reflexivity].
  - apply drift_loop_cons in H. destruct H as (e & He & H).
    apply IH in H. destruct H as [Hin Hout]. split.
    + intros c Hc. destruct (decide (c ∈ rest)) as [Hr|Hr]; [auto|].
      apply elem_of_cons in Hc. destruct Hc as [->|Hc]; [|contradiction].
      rewrite Hout by exact Hr. rewrite lookup_insert_eq, He. eauto.
    + intros c Hc. apply not_elem_of_cons in Hc. destruct Hc as [Hne Hr].
      rewrite Hout by exact Hr. rewrite lookup_insert_ne by congruence.
      reflexivity.
Qed.

(** The status after the loop: still true exactly when it was true and
    no visited column is flagged. *)
Lemma drift_loop_status cols base_df current_df threshold status report
    s s' status' report' :
  drift_loop env cols base_df current_df threshold status report s
    = (s', Return (status', report')) ->
  status' = true <->
  status = true
  /\ forall c e, c ∈ cols ->
       column_entry env base_df current_df threshold c = Some e ->
       drift_status e = false.
Proof.
  revert status report.
  induction cols as [|column rest IH]; intros status report H.
  - simpl in H. minv. split.
    + intros ->. split; [reflexivity|]. intros c e Hc. inversion Hc.
    + intros [-> _]. reflexivity.
  - apply drift_loop_cons in H. destruct H as (e & He & H).
    apply IH in H. rewrite H. clear H. split.
    + intros [Hst Hrest]. destruct (drift_status e) eqn:Hd; [discriminate|].
      split; [exact Hst|]. intros c e' Hc Hc'.
      apply elem_of_cons in Hc. destruct Hc as [->|Hc]; [|eauto].
      congruence.
    + intros [-> Hall]. split.
      * rewrite (Hall column e); [reflexivity| |exact He]. left.
      * intros c e' Hc. apply Hall. right. exact Hc.
Qed.

(** The loop gets through whenever every column has an entry. *)
Lemma drift_loop_succeeds cols base_df current_df threshold status report s :
  (forall c, c ∈ cols -> is_Some (column_entry env base_df current_df threshold c)) ->
  exists out,
    drift_loop env cols base_df current_df threshold status report s
      = (s, Return out).
Proof.
  revert status report.
  induction cols as [|column rest IH]; intros status report Hall.
  - eexists. reflexivity.
  - destruct (Hall column) as [e He]; [left|].
    unfold column_entry in He.
    destruct (getitem base_df column) as [d1|] eqn:E1; [|discriminate].
    destruct (getitem current_df column) as [d2|] eqn:E2; [|discriminate].
    destruct (ks_2samp env d1 d2) as [r|] eqn:E3; [|discriminate].
    simpl. unfold bind, pure_call. rewrite E1, E2, E3.
    apply IH. intros c Hc. apply Hall. right. exact Hc.
Qed.

(** What a returning call of [detect_dataset_drift] has done: the loop
    ran from [status = True] and the empty report, the directory of the
    report was created, the report was written, and the call evaluates
    to [None]. *)
Lemma detect_dataset_drift_Return self base_df current_df threshold s s' v :
  detect_dataset_drift env self base_df current_df threshold s = (s', Return v) ->
  exists status report w1 w2,
    drift_loop env (columns base_df) base_df current_df threshold true ∅ s
      = (s, Return (status, report))
    /\ os_makedirs env
         (os_path_dirname env (cfg_drift_report_file_path (data_validation_config self)))
         true (world s) = (w1, Return tt)
    /\ write_yaml_file env
         (cfg_drift_report_file_path (data_validation_config self)) report w1
       = (w2, Return tt)
    /\ s' = {| world := w2;
               trace := trace s ++
                 [EvMakedirs
                    (os_path_dirname env
                       (cfg_drift_report_file_path (data_validation_config self))) true;
                  EvWriteYaml
                    (cfg_drift_report_file_path (data_validation_config self)) report] |}
    /\ v = None.
Proof.
  unfold detect_dataset_drift. intros H. minv.
  destruct a as [status report].
  pose proof (drift_loop_state _ _ _ _ _ _ _ _ _ Hrun) as ->.
  apply call_Return_inv in Hrun0. destruct Hrun0 as (w1 & Hmk & ->).
  apply call_Return_inv in Hrun1. destruct Hrun1 as (w2 & Hwr & ->).
  destruct a0, a1. simpl in *.
  exists status, report, w1, w2. rewrite <- app_assoc. simpl. auto.
Qed.

End DriftLoop.

(* ===================================================================== *)
(** ** Properties of the drift detector *)
(* ===================================================================== *)

(** A column flagged at one threshold stays flagged at a larger one. *)
Lemma is_found_monotone (p t t' : float) :
  le t t' = true -> is_found t p = true -> is_found t' p = true.
Proof.
  unfold is_found. intros Htt Hf.
  destruct (le t' p) eqn:Ht'p; [|reflexivity].
  rewrite (le_trans t t' p Htt Ht'p) in Hf. discriminate.
Qed.

(** The verdict is the negation of [threshold <= p_value]; in terms of
    [<] that is: the p-value is below the threshold, or one of the two is
    NaN. *)
Lemma is_found_spec (t p : float) :
  is_found t p = true <->
  lt p t = true \/ is_nan p = true \/ is_nan t = true.
Proof.
  unfold is_found. split.
  - intros H. destruct (is_nan p) eqn:Hp; [auto|].
    destruct (is_nan t) eqn:Ht; [auto|].
    left. rewrite lt_not_le by assumption.
    destruct (le t p); [discriminate|reflexivity].
  - intros [H|[H|H]].
    + destruct (le t p) eqn:Hle; [|reflexivity].
      apply lt_rank in H. apply le_rank in Hle.
      destruct H as (Hp & Ht & H), Hle as (_ & _ & Hle).
      unfold lex_lt, lex_le in *.
      destruct (rank p) as [[p1 p2] p3], (rank t) as [[t1 t2] t3]. lia.
    + destruct p; try discriminate. rewrite le_nan_r. reflexivity.
    + destruct t; try discriminate. reflexivity.
Qed.

Section DriftProperties.
Context (env : Env).
Implicit Types (s : State env) (self : DataValidation)
  (base_df current_df : DataFrame) (threshold : float).

Lemma drift_loop_dom base_df current_df threshold s s' status report :
  drift_loop env (columns base_df) base_df current_df threshold true ∅ s
    = (s', Return (status, report)) ->
  dom report = list_to_set (columns base_df).
Proof.
  intros H. apply drift_loop_report in H. destruct H as [Hin Hout].
  apply set_eq. intros c. rewrite elem_of_dom, elem_of_list_to_set. split.
  - intros Hc. destruct (decide (c ∈ columns base_df)) as [|Hn]; [assumption|].
    rewrite (Hout c Hn), lookup_empty in Hc. destruct Hc; discriminate.
  - intros Hc. destruct (Hin c Hc) as [Hsome ->]. exact Hsome.
Qed.

Lemma drift_loop_entries base_df current_df threshold s s' status report :
  drift_loop env (columns base_df) base_df current_df threshold true ∅ s
    = (s', Return (status, report)) ->
  forall c e, report !! c = Some e ->
    c ∈ columns base_df
    /\ column_entry env base_df current_df threshold c = Some e.
Proof.
  intros H c e Hc. apply drift_loop_report in H. destruct H as [Hin Hout].
  destruct (decide (c ∈ columns base_df)) as [Hi|Hn].
  - split; [assumption|]. destruct (Hin c Hi) as [_ <-]. exact Hc.
  - rewrite (Hout c Hn), lookup_empty in Hc. discriminate.
Qed.

Lemma column_entry_status base_df current_df threshold c e :
  column_entry env base_df current_df threshold c = Some e ->
  drift_status e = is_found threshold (p_value e).
Proof.
  unfold column_entry. intros H.
  destruct (getitem base_df c); [|discriminate].
  destruct (getitem current_df c); [|discriminate].
  destruct (ks_2samp env _ _); [|discriminate].
  injection H as <-. reflexivity.
Qed.

(** The p-value of a column does not depend on the threshold. *)
Lemma column_entry_threshold base_df current_df t t' c e :
  column_entry env base_df current_df t c = Some e ->
  column_entry env base_df current_df t' c
  = Some {| p_value := p_value e; drift_status := is_found t' (p_value e) |}.
Proof.
  unfold column_entry. intros H.
  destruct (getitem base_df c); [|discriminate].
  destruct (getitem current_df c); [|discriminate].
  destruct (ks_2samp env _ _); [|discriminate].
  injection H as <-. reflexivity.
Qed.

(** C5, as amended.  In the report written by a returning call of
    [detect_dataset_drift] with threshold [t], a column's
    [drift_status] is true exactly when [t <= p_value] does not hold,
    that is when its p-value is strictly less than [t] or when the
    p-value or [t] is NaN; and the overall status computed by the loop
    is true exactly when no column of the report has [drift_status]
    true. *)
Theorem drift_report_verdicts self base_df current_df threshold s s' v :
  detect_dataset_drift env self base_df current_df threshold s
    = (s', Return v) ->
  exists status report,
    drift_loop env (columns base_df) base_df current_df threshold true ∅ s
      = (s, Return (status, report))
    /\ last (trace s')
       = Some (EvWriteYaml
                 (cfg_drift_report_file_path (data_validation_config self))
                 report)
    /\ (forall c e, report !! c = Some e ->
          (drift_status e = negb (le threshold (p_value e)))
          /\ (drift_status e = true <->
              lt (p_value e) threshold = true
              \/ is_nan (p_value e) = true \/ is_nan threshold = true))
    /\ (status = true <->
        forall c e, report !! c = Some e -> drift_status e = false).
Proof.
  intros H. apply detect_dataset_drift_Return in H.
  destruct H as (status & report & w1 & w2 & Hloop & _ & _ & -> & _).
  exists status, report. split; [exact Hloop|]. split.
  { simpl. rewrite last_app. reflexivity. }
  split.
  - intros c e Hc.
    destruct (drift_loop_entries _ _ _ _ _ _ _ Hloop c e Hc) as [_ He].
    apply column_entry_status in He. rewrite He. split.
    + unfold is_found. destruct (le threshold (p_value e)); reflexivity.
    + apply is_found_spec.
  - rewrite (drift_loop_status _ _ _ _ _ _ _ _ _ _ _ Hloop).
    destruct (drift_loop_report _ _ _ _ _ _ _ _ _ _ _ Hloop) as [Hin Hout].
    split.
    + intros [_ Hall] c e Hc.
      destruct (drift_loop_entries _ _ _ _ _ _ _ Hloop c e Hc) as [Hi He].
      eauto.
    + intros Hall. split; [reflexivity|]. intros c e Hi He.
      apply (Hall c). destruct (Hin c Hi) as [_ ->]. exact He.
Qed.

(** C6.  The key set of the drift report written by a returning call of
    [detect_dataset_drift] is exactly the set of column labels of the
    base dataset: one entry per base column, no other key. *)
Theorem drift_report_keys self base_df current_df threshold s s' v :
  detect_dataset_drift env self base_df current_df threshold s
    = (s', Return v) ->
  exists report,
    last (trace s')
    = Some (EvWriteYaml
              (cfg_drift_report_file_path (data_validation_config self))
              report)
    /\ dom report = list_to_set (columns base_df).
Proof.
  intros H. apply detect_dataset_drift_Return in H.
  destruct H as (status & report & w1 & w2 & Hloop & _ & _ & -> & _).
  exists report. split.
  - simpl. rewrite last_app. reflexivity.
  - eapply drift_loop_dom. exact Hloop.
Qed.

(** C7.  For fixed base and current datasets (hence fixed p-values) and
    thresholds [t <= t'], every column the loop flags as drifted at [t]
    is in the report at [t'] with the same p-value and is flagged there
    too; accordingly an overall status that is true at [t'] is true at
    [t]. *)
Theorem drift_monotone_in_threshold base_df current_df t t' s s1 s2
    status report status' report' :
  le t t' = true ->
  drift_loop env (columns base_df) base_df current_df t true ∅ s
    = (s1, Return (status, report)) ->
  drift_loop env (columns base_df) base_df current_df t' true ∅ s
    = (s2, Return (status', report')) ->
  (forall c e, report !! c = Some e -> drift_status e = true ->
     exists e', report' !! c = Some e'
                /\ p_value e' = p_value e /\ drift_status e' = true)
  /\ (status' = true -> status = true).
Proof.
  intros Htt H1 H2.
  assert (Hflag : forall c e, report !! c = Some e -> drift_status e = true ->
     exists e', report' !! c = Some e'
                /\ p_value e' = p_value e /\ drift_status e' = true).
  { intros c e Hc Hd.
    destruct (drift_loop_entries _ _ _ _ _ _ _ H1 c e Hc) as [Hi He].
    destruct (drift_loop_report _ _ _ _ _ _ _ _ _ _ _ H2) as [Hin _].
    destruct (Hin c Hi) as [_ Hc'].
    rewrite (column_entry_threshold _ _ _ t' _ _ He) in Hc'.
    eexists. split; [exact Hc'|]. simpl. split; [reflexivity|].
    apply (is_found_monotone _ t t' Htt).
    rewrite <- (column_entry_status _ _ _ _ _ He). exact Hd. }
  split; [exact Hflag|].
  intros Hst'.
  apply (drift_loop_status _ _ _ _ _ _ _ _ _ _ _ H1).
  split; [reflexivity|]. intros c e Hi He.
  destruct (drift_status e) eqn:Hd; [|reflexivity].
  destruct (drift_loop_report _ _ _ _ _ _ _ _ _ _ _ H1) as [Hin _].
  destruct (Hin c Hi) as [_ Hc]. rewrite He in Hc.
  destruct (Hflag c e Hc Hd) as (e' & Hc' & _ & Hd').
  destruct (drift_loop_entries _ _ _ _ _ _ _ H2 c e' Hc') as [_ He'].
  apply (drift_loop_status _ _ _ _ _ _ _ _ _ _ _ H2) in Hst'.
  destruct Hst' as [_ Hall]. rewrite (Hall c e' Hi He') in Hd'. discriminate.
Qed.

End DriftProperties.

(* ===================================================================== *)
(** ** The orchestrator: what a returning run has done *)
(* ===================================================================== *)

Section Orchestrator.
Context (env : Env).
Implicit Types (s : State env) (self : DataValidation).

Lemma read_data_Return file_path s s' df :
  read_data env file_path s = (s', Return df) ->
  exists w, pd_read_csv env file_path (world s) = (w, Return df)
            /\ s' = {| world := w; trace := trace s ++ [EvReadCsv file_path] |}.
Proof.
  unfold read_data. intros H. minv. apply call_Return_inv in H. exact H.
Qed.

Lemma initiate_data_validation_Return self s s' artifact :
  initiate_data_validation env self s = (s', Return artifact) ->
  exists w1 w2 train test s2 status report,
    pd_read_csv env (trained_file_path (data_ingestion_artifact self)) (world s)
      = (w1, Return train)
    /\ pd_read_csv env (test_file_path (data_ingestion_artifact self)) w1
       = (w2, Return test)
    /\ drift_loop env (columns train) train test default_threshold true ∅ s2
       = (s2, Return (status, report))
    /\ trace s' = trace s ++ run_events env self train test report
    /\ artifact
       = {| validation_status := None;
            valid_train_file_path := trained_file_path (data_ingestion_artifact self);
            valid_test_file_path := test_file_path (data_ingestion_artifact self);
            invalid_train_file_path := None;
            invalid_test_file_path := None;
            drift_report_file_path :=
              cfg_drift_report_file_path (data_validation_config self) |}.
Proof.
  unfold initiate_data_validation. intros H. minv.
  apply read_data_Return in Hrun. destruct Hrun as (w1 & Hr1 & ->).
  apply read_data_Return in Hrun0. destruct Hrun0 as (w2 & Hr2 & ->).
  rewrite validate_number_of_columns_run in Hrun1, Hrun2.
  injection Hrun1 as <- <-. injection Hrun2 as <- <-.
  apply validate_numerical_columns_Return in Hrun3. destruct Hrun3 as [-> ->].
  apply validate_numerical_columns_Return in Hrun4. destruct Hrun4 as [-> ->].
  apply detect_dataset_drift_Return in Hrun5.
  destruct Hrun5 as (status & report & w3 & w4 & Hloop & _ & _ & -> & ->).
  apply call_Return_inv in Hrun6. destruct Hrun6 as (w5 & _ & ->).
  apply call_Return_inv in Hrun7. destruct Hrun7 as (w6 & _ & ->).
  apply call_Return_inv in Hrun8. destruct Hrun8 as (w7 & _ & ->).
  simpl in *.
  exists w1, w2, a, a0. eexists. exists status, report.
  split; [exact Hr1|]. split; [exact Hr2|]. split; [exact Hloop|].
  split; [|reflexivity].
  unfold run_events. simpl. rewrite <- !app_assoc. reflexivity.
Qed.


(** C10.  On every returning run of [initiate_data_validation] the
    artifact's [valid_train_file_path] and [valid_test_file_path] are
    the ingestion artifact's [trained_file_path] and [test_file_path],
    while the copies were written to the configured valid paths. *)
Theorem valid_paths_are_ingestion_paths self s s' artifact :
  initiate_data_validation env self s = (s', Return artifact) ->
  valid_train_file_path artifact
    = trained_file_path (data_ingestion_artifact self)
  /\ valid_test_file_path artifact
     = test_file_path (data_ingestion_artifact self)
  /\ exists train test,
       EvToCsv (cfg_valid_train_file_path (data_validation_config self))
               train false true ∈ trace s'
       /\ EvToCsv (cfg_valid_test_file_path (data_validation_config self))
                  test false true ∈ trace s'.
Proof.
  intros H. apply initiate_data_validation_Return in H.
  destruct H as (w1 & w2 & train & test & s2 & status & report
                 & _ & _ & _ & Htr & ->).
  split; [reflexivity|]. split; [reflexivity|].
  exists train, test. rewrite Htr. unfold run_events.
  split; apply elem_of_app; right; set_solver.
Qed.

End Orchestrator.

(* ===================================================================== *)
(** ** Error handling: every failure is wrapped and aborts the run *)
(* ===================================================================== *)

Section ErrorHandling.
Context (env : Env).
Implicit Types (s : State env) (tr : list Event) (x e : PyException).

Lemma quiet_nil : quiet [].
Proof. constructor. Qed.

Lemma quiet_app tr1 tr2 : quiet tr1 -> quiet tr2 -> quiet (tr1 ++ tr2).
Proof. unfold quiet. intros H1 H2. apply Forall_app. auto. Qed.

Lemma propagates_ret {A} (v : A) : propagates env carried (ret v).
Proof.
  intros s. exists []. simpl. rewrite app_nil_r. split; [reflexivity|].
  apply quiet_nil.
Qed.

Lemma propagates_pure_call {A} (r : Outcome A) : propagates env carried (pure_call r).
Proof.
  intros s. unfold pure_call. destruct r as [v|e]; simpl.
  - exists []. rewrite app_nil_r. split; [reflexivity|]. apply quiet_nil.
  - exists [EvRaise e]. split; [reflexivity|].
    exists [], e. split; [reflexivity|]. split; [apply quiet_nil|]. left.
    reflexivity.
Qed.

Lemma propagates_call {A} ev (op : World env -> World env * Outcome A) :
  is_raise ev = false -> propagates env carried (call ev op).
Proof.
  intros Hev s. unfold call. destruct (op (world s)) as [w' [v|e]]; simpl.
  - exists [ev]. split; [reflexivity|]. constructor; [exact Hev|constructor].
  - exists [ev; EvRaise e]. split; [reflexivity|].
    exists [ev], e. split; [reflexivity|]. split; [|left; reflexivity].
    constructor; [exact Hev|constructor].
Qed.

Lemma propagates_bind {A B} (m : M env A) (k : A -> M env B) :
  propagates env carried m -> (forall a, propagates env carried (k a)) ->
  propagates env carried (bind m k).
Proof.
  intros Hm Hk s. unfold bind. destruct (Hm s) as (tr1 & Ht1 & Ho1).
  destruct (m s) as [s1 [a|x]]; simpl in *.
  - destruct (Hk a s1) as (tr2 & Ht2 & Ho2).
    exists (tr1 ++ tr2). rewrite Ht2, Ht1, app_assoc. split; [reflexivity|].
    destruct (snd (k a s1)) as [v|x]; simpl in *.
    + apply quiet_app; assumption.
    + destruct Ho2 as (tr0 & e & -> & Hq & Hc).
      exists (tr1 ++ tr0), e. rewrite app_assoc. split; [reflexivity|].
      split; [apply quiet_app; assumption|exact Hc].
  - exists tr1. split; assumption.
Qed.

Lemma propagates_try_except {A} (m : M env A) :
  propagates env carried m -> propagates env wraps (try_except m).
Proof.
  intros Hm s. unfold try_except. destruct (Hm s) as (tr & Ht & Ho).
  destruct (m s) as [s1 [a|x]]; simpl in *; exists tr; split; try assumption.
  destruct Ho as (tr0 & e & -> & Hq & Hc). exists tr0, e.
  split; [reflexivity|]. split; [exact Hq|].
  destruct Hc as [->|Hw]; [apply wraps_once|apply wraps_more; exact Hw].
Qed.

Lemma propagates_weaken {A} (m : M env A) :
  propagates env wraps m -> propagates env carried m.
Proof.
  intros Hm s. destruct (Hm s) as (tr & Ht & Ho). exists tr.
  split; [exact Ht|]. destruct (snd (m s)); simpl in *; [exact Ho|].
  destruct Ho as (tr0 & e0 & -> & Hq & Hw). exists tr0, e0.
  split; [reflexivity|]. split; [exact Hq|]. right. exact Hw.
Qed.

(** A wrapper is of the domain type. *)
Lemma wraps_domain x e : wraps x e -> is_domain_exception x = true.
Proof. intros H. destruct H; reflexivity. Qed.

(** A wrapper and what it wraps have the same innermost exception. *)
Lemma wraps_root_cause x e : wraps x e -> root_cause x = root_cause e.
Proof. intros H. induction H; simpl; congruence. Qed.

Ltac propagation :=
  repeat first
    [ apply propagates_try_except
    | apply propagates_bind; [|intros ?]
    | apply propagates_ret
    | apply propagates_pure_call
    | apply propagates_call; reflexivity ].

Lemma propagates_init ingestion config :
  propagates env wraps (init env ingestion config).
Proof. unfold init. propagation. Qed.

Lemma propagates_read_data file_path :
  propagates env wraps (read_data env file_path).
Proof. unfold read_data. propagation. Qed.

Lemma propagates_validate_number_of_columns self df :
  propagates env wraps (validate_number_of_columns env self df).
Proof.
  unfold validate_number_of_columns. cbv zeta.
  destruct (Nat.eqb _ _); propagation.
Qed.

Lemma propagates_validate_numerical_columns self df :
  propagates env wraps (validate_numerical_columns env self df).
Proof.
  unfold validate_numerical_columns. cbv zeta. propagation.
Qed.

Lemma propagates_drift_loop cols base_df current_df threshold status report :
  propagates env carried
    (drift_loop env cols base_df current_df threshold status report).
Proof.
  revert status report.
  induction cols as [|column rest IH]; intros status report; simpl.
  - propagation.
  - propagation. apply IH.
Qed.

Lemma propagates_detect_dataset_drift self base_df current_df threshold :
  propagates env wraps (detect_dataset_drift env self base_df current_df threshold).
Proof.
  unfold detect_dataset_drift. apply propagates_try_except.
  apply propagates_bind; [apply propagates_drift_loop|intros sr].
  cbv zeta. propagation.
Qed.

Lemma propagates_initiate_data_validation self :
  propagates env wraps (initiate_data_validation env self).
Proof.
  unfold initiate_data_validation. cbv zeta.
  apply propagates_try_except.
  repeat first
    [ apply propagates_ret
    | apply propagates_call; reflexivity
    | apply propagates_bind; [|intros ?]
    | apply propagates_weaken; apply propagates_read_data
    | apply propagates_weaken; apply propagates_validate_number_of_columns
    | apply propagates_weaken; apply propagates_validate_numerical_columns
    | apply propagates_weaken; apply propagates_detect_dataset_drift ].
Qed.

Lemma propagates_wrapped_or_returned {A} (m : M env A) s :
  propagates env wraps m -> wrapped_or_returned s (m s).
Proof.
  intros Hm. destruct (Hm s) as (tr & Ht & Ho). exists tr.
  split; [exact Ht|]. destruct (snd (m s)) as [v|x]; simpl in *; [exact Ho|].
  destruct Ho as (tr0 & e & -> & Hq & Hw). exists tr0, e.
  split; [reflexivity|]. split; [exact Hq|]. split; [exact Hw|].
  split; [eapply wraps_domain; exact Hw|apply wraps_root_cause; exact Hw].
Qed.

(** C9.  Every run of the constructor (schema read), of [read_data] and
    of [initiate_data_validation] either returns, and then no library
    call raised, or raises; in that case exactly one library exception
    [e] was raised (file I/O, schema read, the statistical test, ...),
    it is the last event of the run, so nothing was executed after it,
    and the exception that leaves the call is of the domain type and
    wraps [e], keeping [e] as its innermost cause.  A raising run yields
    no artifact: its outcome is [Raise]. *)
Theorem errors_wrapped_and_abort ingestion config self file_path s :
  wrapped_or_returned s (init env ingestion config s)
  /\ wrapped_or_returned s (read_data env file_path s)
  /\ wrapped_or_returned s (initiate_data_validation env self s).
Proof.
  split; [|split]; apply propagates_wrapped_or_returned.
  - apply propagates_init.
  - apply propagates_read_data.
  - apply propagates_initiate_data_validation.
Qed.

End ErrorHandling.

(* ===================================================================== *)
(** ** The code on concrete inputs *)
(* ===================================================================== *)

Section Examples.
Import Demo Runs Expected.

Lemma loop_people_shifted :
  drift_loop env (columns people) people people_shifted default_threshold
    true ∅ s_shifted
  = (s_shifted, Return (false, report_shifted)).
Proof. reflexivity. Qed.

Lemma loop_people_same :
  drift_loop env (columns people) people people default_threshold true ∅ s0
  = (s0, Return (true, report_same)).
Proof. reflexivity. Qed.

(** C1 (code bug).  On the base and current dataset [people] (same
    columns) the loop computes the overall status [True] and a report, the
    report is written, and the call evaluates to [None]: no boolean
    reaches the caller. *)
Theorem detect_dataset_drift_evaluates_to_None :
  snd (detect_dataset_drift env self people people default_threshold s0)
  = Return None
  /\ snd (drift_loop env (columns people) people people default_threshold
            true ∅ s0)
     = Return (true, report_same)
  /\ trace (fst (detect_dataset_drift env self people people
                   default_threshold s0))
     = [EvMakedirs "artifacts/drift_report" true;
        EvWriteYaml report_path report_same].
Proof. repeat split; reflexivity. Qed.

(** C2 (code bug).  On train [people] and test [people_shifted] the run
    returns an artifact whose [validation_status] is [None], although the
    drift loop computed the overall status [False]. *)
Theorem validation_status_is_None :
  snd (initiate_data_validation env self s_shifted)
  = Return {| validation_status := None;
              valid_train_file_path := "artifacts/ingested/train.csv";
              valid_test_file_path := "artifacts/ingested/test.csv";
              invalid_train_file_path := None;
              invalid_test_file_path := None;
              drift_report_file_path := report_path |}
  /\ snd (drift_loop env (columns people) people people_shifted
            default_threshold true ∅ s_shifted)
     = Return (false, report_shifted).
Proof. split; reflexivity. Qed.

(** C3 (code bug).  The schema requires [age] and [income] to be
    numerical and [people] has the numeric columns [age], [income] and
    [score]: the specification's check holds, the code returns [False]. *)
Theorem validate_numerical_columns_rejects_superset :
  snd (validate_numerical_columns env self people s0) = Return false
  /\ Spec.validate_numerical_columns people (_schema_config self) = true
  /\ Spec.numerical_column_names (_schema_config self) = {[ "age"; "income" ]}
  /\ columns (select_dtypes_number people) = ["age"; "income"; "score"].
Proof. repeat split; reflexivity. Qed.

(** C4 (code bug).  For a schema that declares 31 columns and a dataset
    of 31 columns the specification's check holds and the code returns
    [False]: it compares 31 with the 2 top-level keys of the schema;
    a dataset of 2 columns is accepted. *)
Theorem validate_number_of_columns_rejects_31_of_31 :
  Spec.total_column_count (wide_schema 31) = 31
  /\ length (columns (wide 31)) = 31
  /\ Spec.validate_column_count (wide 31) (wide_schema 31) = true
  /\ snd (validate_number_of_columns env (wide_self 31) (wide 31) s0)
     = Return false
  /\ snd (validate_number_of_columns env (wide_self 31) (wide 2) s0)
     = Return true.
Proof. repeat split; reflexivity. Qed.

(** C5, the claim as stated fails.  The column [a] of [readings] holds a
    missing value, the test yields the p-value NaN, and the report written
    by [detect_dataset_drift] flags the column although its p-value is not
    strictly less than the threshold. *)
Lemma nan_p_value_is_flagged :
  trace (fst (detect_dataset_drift env self readings readings
                default_threshold s_readings))
  = [EvMakedirs "artifacts/drift_report" true;
     EvWriteYaml report_path report_readings]
  /\ report_readings !! "a" = Some {| p_value := nan; drift_status := true |}
  /\ ~ (drift_status {| p_value := nan; drift_status := true |} = true
        <-> lt (p_value {| p_value := nan; drift_status := true |})
               default_threshold = true).
Proof.
  split; [reflexivity|]. split; [reflexivity|].
  simpl. intros [H _]. specialize (H eq_refl). discriminate.
Qed.

Lemma drift_report_verdicts_witness :
  detect_dataset_drift env self readings readings default_threshold s_readings
  = (fst (detect_dataset_drift env self readings readings default_threshold
            s_readings), Return None)
  /\ exists status report,
       drift_loop env (columns readings) readings readings default_threshold
         true ∅ s_readings
       = (s_readings, Return (status, report))
       /\ (forall c e, report !! c = Some e ->
             drift_status e = negb (le default_threshold (p_value e)))
       /\ (status = true <->
           forall c e, report !! c = Some e -> drift_status e = false).
Proof.
  split; [reflexivity|].
  destruct (drift_report_verdicts env self readings readings default_threshold
              s_readings _ None eq_refl)
    as (status & report & Hloop & _ & Hentries & Hstatus).
  exists status, report. split; [exact Hloop|]. split; [|exact Hstatus].
  intros c e Hc. exact (proj1 (Hentries c e Hc)).
Defined.

Lemma drift_report_keys_witness :
  detect_dataset_drift env self people people_shifted default_threshold s_shifted
  = (fst (detect_dataset_drift env self people people_shifted
            default_threshold s_shifted), Return None)
  /\ exists report,
       last (trace (fst (detect_dataset_drift env self people people_shifted
                           default_threshold s_shifted)))
       = Some (EvWriteYaml report_path report)
       /\ dom report = list_to_set ["age"; "income"; "score"; "name"].
Proof.
  split; [reflexivity|].
  exact (drift_report_keys env self people people_shifted default_threshold
           s_shifted _ None eq_refl).
Defined.

Lemma drift_monotone_in_threshold_witness :
  le f0_05 f1_0 = true
  /\ drift_loop env (columns people) people people_shifted f0_05 true ∅
       s_shifted
     = (s_shifted, Return (false, report_shifted))
  /\ drift_loop env (columns people) people people_shifted f1_0 true ∅
       s_shifted
     = (s_shifted, Return (false, report_shifted))
  /\ (forall c e, report_shifted !! c = Some e -> drift_status e = true ->
        exists e', report_shifted !! c = Some e'
                   /\ p_value e' = p_value e /\ drift_status e' = true)
  /\ (false = true -> false = true).
Proof.
  split; [reflexivity|]. split; [reflexivity|]. split; [reflexivity|].
  exact (drift_monotone_in_threshold env people people_shifted f0_05 f1_0
           s_shifted s_shifted s_shifted false report_shifted false
           report_shifted eq_refl eq_refl eq_refl).
Defined.

Lemma run_shifted :
  initiate_data_validation env self s_shifted
  = (fst (initiate_data_validation env self s_shifted), Return artifact_shifted)
  /\ trace (fst (initiate_data_validation env self s_shifted)) = events_shifted.
Proof. split; reflexivity. Qed.


Lemma valid_paths_are_ingestion_paths_witness :
  initiate_data_validation env self s_shifted
  = (fst (initiate_data_validation env self s_shifted), Return artifact_shifted)
  /\ valid_train_file_path artifact_shifted = "artifacts/ingested/train.csv"
  /\ valid_test_file_path artifact_shifted = "artifacts/ingested/test.csv"
  /\ exists train test,
       EvToCsv "artifacts/validated/train.csv" train false true
         ∈ trace (fst (initiate_data_validation env self s_shifted))
       /\ EvToCsv "artifacts/validated/test.csv" test false true
            ∈ trace (fst (initiate_data_validation env self s_shifted)).
Proof.
  split; [reflexivity|].
  exact (valid_paths_are_ingestion_paths env self s_shifted _
           artifact_shifted eq_refl).
Defined.

(** A run that fails: the test file is missing.  [read_data] wraps the
    FileNotFoundError, [initiate_data_validation] wraps it again, and
    nothing is executed after the failed read. *)
Lemma missing_test_file_aborts :
  snd (initiate_data_validation env self s_no_test)
  = Raise (NetworkSecurityException (NetworkSecurityException
             (Builtin "FileNotFoundError" "artifacts/ingested/test.csv")))
  /\ trace (fst (initiate_data_validation env self s_no_test))
     = [ EvReadCsv "artifacts/ingested/train.csv";
         EvReadCsv "artifacts/ingested/test.csv";
         EvRaise (Builtin "FileNotFoundError" "artifacts/ingested/test.csv") ].
Proof. split; reflexivity. Qed.

End Examples.

(* ===================================================================== *)
(** ** Further properties of the structural checks *)
(* ===================================================================== *)

Section MoreStructural.
Context (env : Env).
Implicit Types (s : State env) (self : DataValidation) (df : DataFrame).

Lemma set_of_items_outcome (l : list YamlValue) :
  match first_unhashable l with
  | Some e => set_of_items l = Raise e
  | None => exists names, set_of_items l = Return names
  end.
Proof.
  induction l as [|item rest IH]; simpl.
  - eexists. reflexivity.
  - destruct (hashable item) as [name|e]; simpl; [|reflexivity].
    destruct (first_unhashable rest) as [e|].
    + rewrite IH. reflexivity.
    + destruct IH as [names ->]. eexists. reflexivity.
Qed.

Lemma py_set_outcome (v : YamlValue) :
  match set_error v with
  | Some e => py_set v = Raise e
  | None => exists names, py_set v = Return names
  end.
Proof.
  destruct v as [str|l|entries]; simpl.
  - eexists. reflexivity.
  - apply set_of_items_outcome.
  - eexists. reflexivity.
Qed.

(** The two cases of [validate_numerical_columns]. *)
Lemma validate_numerical_columns_cases self df s :
  validate_numerical_columns env self df s
  = match set_error (expected_numerical_columns self) with
    | None => (s, Return false)
    | Some e => (after_raise s e, Raise (NetworkSecurityException e))
    end.
Proof.
  unfold validate_numerical_columns, expected_numerical_columns,
    try_except, bind, pure_call.
  cbv zeta.
  pose proof (py_set_outcome
                (default (YSeq []) (_schema_config self !! "numerical_columns")))
    as Hset.
  destruct (set_error _) as [e|].
  - rewrite Hset. reflexivity.
  - destruct Hset as [names ->]. reflexivity.
Qed.


(** X2.  With a schema mapping whose top-level keys are exactly [columns]
    and [numerical_columns], [validate_number_of_columns] accepts a data
    frame exactly when it has two columns, whatever the schema's column
    list declares; it never raises and has no effect. *)
Theorem two_key_schema_accepts_two_columns self df s :
  dom (_schema_config self) = {[ "columns"; "numerical_columns" ]} ->
  validate_number_of_columns env self df s
  = (s, Return (Nat.eqb (length (columns df)) 2)).
Proof.
  intros Hdom. rewrite validate_number_of_columns_run.
  assert (Hsize : size (_schema_config self) = 2).
  { rewrite <- size_dom, Hdom. rewrite size_union.
    - rewrite !size_singleton. reflexivity.
    - apply disjoint_singleton_l, not_elem_of_singleton. discriminate. }
  rewrite Hsize. reflexivity.
Qed.

End MoreStructural.

(* ===================================================================== *)
(** ** Further properties of the drift detector *)
(* ===================================================================== *)

Section MoreDrift.
Context (env : Env).
Implicit Types (s : State env) (self : DataValidation)
  (base_df current_df : DataFrame) (threshold : float).

Lemma labelled_missing df (c : string) :
  c ∉ columns df -> labelled c df = [].
Proof.
  unfold columns, labelled. destruct df as [l]. simpl.
  induction l as [|[label col] rest IH]; intros Hc; [reflexivity|].
  simpl in Hc. apply not_elem_of_cons in Hc. destruct Hc as [Hne Hrest].
  rewrite filter_cons. simpl. destruct (decide (label = c)) as [->|_].
  - contradiction.
  - apply IH. exact Hrest.
Qed.

Lemma getitem_missing df (c : string) :
  c ∉ columns df -> getitem df c = Raise (Builtin "KeyError" c).
Proof. intros Hc. unfold getitem. rewrite labelled_missing by exact Hc. reflexivity. Qed.

(** Whatever the loop's outcome, it has touched nothing: a raising loop
    only records its exception. *)
Lemma drift_loop_outcome cols base_df current_df threshold status report s :
  fst (drift_loop env cols base_df current_df threshold status report s)
  = match snd (drift_loop env cols base_df current_df threshold status report s) with
    | Return _ => s
    | Raise e => after_raise s e
    end.
Proof.
  revert status report.
  induction cols as [|column rest IH]; intros status report; simpl.
  - reflexivity.
  - unfold bind, pure_call.
    destruct (getitem base_df column) as [d1|e]; [|reflexivity].
    destruct (getitem current_df column) as [d2|e]; [|reflexivity].
    destruct (ks_2samp env d1 d2) as [r|e]; [|reflexivity].
    apply IH.
Qed.

(** The loop raises when a column it visits is absent from the current
    frame. *)
Lemma drift_loop_missing cols base_df current_df threshold status report s c :
  c ∈ cols -> c ∉ columns current_df ->
  exists e,
    snd (drift_loop env cols base_df current_df threshold status report s)
    = Raise e.
Proof.
  intros Hc Hmiss. revert status report.
  induction cols as [|column rest IH]; intros status report.
  - inversion Hc.
  - simpl. unfold bind, pure_call.
    destruct (getitem base_df column) as [d1|e]; [|eexists; reflexivity].
    destruct (getitem current_df column) as [d2|e] eqn:Hget;
      [|eexists; reflexivity].
    apply elem_of_cons in Hc. destruct Hc as [->|Hc].
    + rewrite getitem_missing in Hget by exact Hmiss. discriminate.
    + destruct (ks_2samp env d1 d2) as [r|e]; [|eexists; reflexivity].
      apply IH. exact Hc.
Qed.

(** [detect_dataset_drift] when its loop raises: the exception is wrapped
    and neither the directory nor the report is touched. *)
Lemma detect_dataset_drift_loop_raises self base_df current_df threshold s e :
  snd (drift_loop env (columns base_df) base_df current_df threshold true ∅ s)
    = Raise e ->
  detect_dataset_drift env self base_df current_df threshold s
  = (after_raise s e, Raise (NetworkSecurityException e)).
Proof.
  intros Hloop. unfold detect_dataset_drift, try_except, bind.
  pose proof (drift_loop_outcome (columns base_df) base_df current_df
                threshold true ∅ s) as Hst.
  destruct (drift_loop env (columns base_df) base_df current_df threshold
              true ∅ s) as [s1 r].
  simpl in *. subst r. rewrite Hst. reflexivity.
Qed.

(** X3.  When a column of the base frame is absent from the current
    frame, [detect_dataset_drift] raises a [NetworkSecurityException];
    no directory is created and no report is written: the world is
    unchanged and the only new event is the exception. *)
Theorem missing_column_aborts_detection self base_df current_df threshold s c :
  c ∈ columns base_df -> c ∉ columns current_df ->
  exists e,
    detect_dataset_drift env self base_df current_df threshold s
    = (after_raise s e, Raise (NetworkSecurityException e)).
Proof.
  intros Hc Hmiss.
  destruct (drift_loop_missing (columns base_df) base_df current_df threshold
              true ∅ s c Hc Hmiss) as [e He].
  exists e. apply detect_dataset_drift_loop_raises. exact He.
Qed.

Lemma drift_loop_agree cols base_df current_df current_df' threshold status
    report s :
  (forall c, c ∈ cols -> labelled c current_df = labelled c current_df') ->
  drift_loop env cols base_df current_df threshold status report s
  = drift_loop env cols base_df current_df' threshold status report s.
Proof.
  revert status report.
  induction cols as [|column rest IH]; intros status report Hagree;
    [reflexivity|].
  simpl. unfold bind, pure_call, getitem.
  rewrite (Hagree column) by left.
  destruct (match labelled column base_df with
            | [] => _ | _ => _ end) as [d1|e]; [|reflexivity].
  destruct (match labelled column current_df' with
            | [] => _ | _ => _ end) as [d2|e]; [|reflexivity].
  destruct (ks_2samp env d1 d2) as [r|e]; [|reflexivity].
  apply IH. intros c Hc. apply Hagree. right. exact Hc.
Qed.

(** X4.  [detect_dataset_drift] looks at the current frame only under the
    labels of the base frame: two current frames with the same columns
    under those labels give the same run, whatever other columns they
    hold. *)
Theorem extra_columns_ignored self base_df current_df current_df' threshold s :
  (forall c, c ∈ columns base_df ->
     labelled c current_df = labelled c current_df') ->
  detect_dataset_drift env self base_df current_df threshold s
  = detect_dataset_drift env self base_df current_df' threshold s.
Proof.
  intros Hagree. unfold detect_dataset_drift, try_except, bind.
  rewrite (drift_loop_agree _ _ _ _ _ _ _ _ Hagree). reflexivity.
Qed.

(** X5.  [detect_dataset_drift] returns as soon as every column of the
    base frame can be selected from both frames and tested, the directory
    of the report can be created and the report can be written; it then
    evaluates to [None], having performed these two file operations and
    nothing else. *)
Theorem detection_returns self base_df current_df threshold s w1 :
  (forall c, c ∈ columns base_df ->
     is_Some (column_entry env base_df current_df threshold c)) ->
  os_makedirs env
    (os_path_dirname env (cfg_drift_report_file_path (data_validation_config self)))
    true (world s) = (w1, Return tt) ->
  (forall report, exists w2,
     write_yaml_file env
       (cfg_drift_report_file_path (data_validation_config self)) report w1
     = (w2, Return tt)) ->
  exists report w2,
    detect_dataset_drift env self base_df current_df threshold s
    = ({| world := w2;
          trace := trace s ++
            [EvMakedirs
               (os_path_dirname env
                  (cfg_drift_report_file_path (data_validation_config self))) true;
             EvWriteYaml
               (cfg_drift_report_file_path (data_validation_config self)) report] |},
       Return None).
Proof.
  intros Hcols Hmk Hwr.
  destruct (drift_loop_succeeds env (columns base_df) base_df current_df
              threshold true ∅ s Hcols) as [[status report] Hloop].
  destruct (Hwr report) as [w2 Hw].
  exists report, w2.
  unfold detect_dataset_drift, try_except, bind, call.
  rewrite Hloop. cbv zeta. simpl. rewrite Hmk. simpl. rewrite Hw. simpl.
  rewrite <- app_assoc. reflexivity.
Qed.

End MoreDrift.

(* ===================================================================== *)
(** ** Further properties of the orchestrator *)
(* ===================================================================== *)

Section MoreOrchestrator.
Context (env : Env).
Implicit Types (s : State env) (self : DataValidation).

(** [read_data] on both outcomes of [pd.read_csv]. *)
Lemma read_data_run file_path s :
  read_data env file_path s
  = match pd_read_csv env file_path (world s) with
    | (w, Return df) =>
        ({| world := w; trace := trace s ++ [EvReadCsv file_path] |}, Return df)
    | (w, Raise e) =>
        ({| world := w; trace := trace s ++ [EvReadCsv file_path; EvRaise e] |},
         Raise (NetworkSecurityException e))
    end.
Proof.
  unfold read_data, try_except, call.
  destruct (pd_read_csv env file_path (world s)) as [w [df|e]]; reflexivity.
Qed.

(** X6.  A file that cannot be read aborts the run at once, and the
    exception of [pd.read_csv] leaves [initiate_data_validation] wrapped
    twice, by [read_data] and by the orchestrator.  When the train file
    fails, the test file is not even read; when the test file fails, the
    two reads are all that happened. *)
Theorem read_failure_aborts self s :
  (forall w e,
     pd_read_csv env (trained_file_path (data_ingestion_artifact self)) (world s)
       = (w, Raise e) ->
     initiate_data_validation env self s
     = ({| world := w;
           trace := trace s ++
             [EvReadCsv (trained_file_path (data_ingestion_artifact self));
              EvRaise e] |},
        Raise (NetworkSecurityException (NetworkSecurityException e))))
  /\ (forall w1 train w2 e,
        pd_read_csv env (trained_file_path (data_ingestion_artifact self)) (world s)
          = (w1, Return train) ->
        pd_read_csv env (test_file_path (data_ingestion_artifact self)) w1
          = (w2, Raise e) ->
        initiate_data_validation env self s
        = ({| world := w2;
              trace := trace s ++
                [EvReadCsv (trained_file_path (data_ingestion_artifact self));
                 EvReadCsv (test_file_path (data_ingestion_artifact self));
                 EvRaise e] |},
           Raise (NetworkSecurityException (NetworkSecurityException e)))).
Proof.
  split.
  - intros w e Hr. unfold initiate_data_validation, try_except, bind.
    cbv zeta. rewrite read_data_run, Hr. reflexivity.
  - intros w1 train w2 e Hr1 Hr2.
    unfold initiate_data_validation, try_except, bind.
    cbv zeta. rewrite read_data_run, Hr1. rewrite read_data_run. simpl.
    rewrite Hr2. rewrite <- app_assoc. reflexivity.
Qed.

(** X7.  A schema whose [numerical_columns] list holds an item that
    cannot enter a set aborts the run after the two reads: the TypeError
    leaves wrapped twice, drift detection is not run, and neither the
    report nor the copies are written. *)
Theorem malformed_schema_aborts self s w1 train w2 test e :
  pd_read_csv env (trained_file_path (data_ingestion_artifact self)) (world s)
    = (w1, Return train) ->
  pd_read_csv env (test_file_path (data_ingestion_artifact self)) w1
    = (w2, Return test) ->
  set_error (expected_numerical_columns self) = Some e ->
  initiate_data_validation env self s
  = ({| world := w2;
        trace := trace s ++
          [EvReadCsv (trained_file_path (data_ingestion_artifact self));
           EvReadCsv (test_file_path (data_ingestion_artifact self));
           EvRaise e] |},
     Raise (NetworkSecurityException (NetworkSecurityException e))).
Proof.
  intros Hr1 Hr2 Hset.
  unfold initiate_data_validation, try_except, bind.
  cbv zeta. rewrite read_data_run, Hr1. rewrite read_data_run. simpl.
  rewrite Hr2. rewrite !validate_number_of_columns_run.
  rewrite validate_numerical_columns_cases, Hset. unfold after_raise. simpl.
  rewrite <- !app_assoc. reflexivity.
Qed.


End MoreOrchestrator.

(* ===================================================================== *)
(** ** The order of the effects of a run *)
(* ===================================================================== *)

Section EffectOrder.
Context (env : Env).
Implicit Types (s : State env) (self : DataValidation).

Lemma effects_app (tr1 tr2 : list Event) :
  effects (tr1 ++ tr2) = effects tr1 ++ effects tr2.
Proof.
  induction tr1 as [|ev rest IH]; simpl; [reflexivity|].
  destruct (is_raise ev); simpl; congruence.
Qed.

(** The file operations of [detect_dataset_drift], on every outcome: the
    directory, then the report, as far as the call got. *)
Lemma detect_dataset_drift_effects self base_df current_df threshold s :
  exists tr report,
    trace (fst (detect_dataset_drift env self base_df current_df threshold s))
      = trace s ++ tr
    /\ effects tr `prefix_of`
         [EvMakedirs
            (os_path_dirname env
               (cfg_drift_report_file_path (data_validation_config self))) true;
          EvWriteYaml
            (cfg_drift_report_file_path (data_validation_config self)) report]
    /\ (forall v,
          snd (detect_dataset_drift env self base_df current_df threshold s)
            = Return v ->
          effects tr
          = [EvMakedirs
               (os_path_dirname env
                  (cfg_drift_report_file_path (data_validation_config self))) true;
             EvWriteYaml
               (cfg_drift_report_file_path (data_validation_config self)) report]).
Proof.
  unfold detect_dataset_drift, try_except, bind.
  pose proof (drift_loop_outcome env (columns base_df) base_df current_df
                threshold true ∅ s) as Hst.
  destruct (drift_loop env (columns base_df) base_df current_df threshold
              true ∅ s) as [s1 [[status report]|e]]; simpl in Hst; subst s1.
  - cbv zeta. unfold call. simpl.
    destruct (os_makedirs env _ true (world s)) as [w1 [u|e]]; simpl.
    + destruct (write_yaml_file env _ report w1) as [w2 [u2|e]]; simpl.
      * eexists [_; _], report. rewrite <- app_assoc.
        split; [reflexivity|]. split; [exists []; reflexivity|].
        intros _ _. reflexivity.
      * eexists [_; _; EvRaise e], report. rewrite <- app_assoc.
        split; [reflexivity|]. split; [exists []; reflexivity|].
        intros v Hv. discriminate.
    + eexists [_; EvRaise e], report.
      split; [reflexivity|]. split; [eexists [_]; reflexivity|].
      intros v Hv. discriminate.
  - exists [EvRaise e], ∅. split; [reflexivity|].
    split; [eexists [_; _]; reflexivity|]. intros v Hv. discriminate.
Qed.

(** X9.  On every run of [initiate_data_validation], failing or not, the
    library calls that touch the world are an initial part of one fixed
    sequence: read the train file, read the test file, create the report
    directory, write the report, create the directory of the valid files,
    write the train copy, write the test copy.  So the report is never
    written before both files were read, no copy is written before the
    report, and a failure stops the sequence where it occurs. *)
Theorem effects_in_order self s :
  exists tr train test report,
    trace (fst (initiate_data_validation env self s)) = trace s ++ tr
    /\ effects tr `prefix_of` run_events env self train test report.
Proof.
  set (nodf := {| items := [] |}).
  unfold initiate_data_validation, try_except, bind. cbv zeta.
  rewrite read_data_run.
  destruct (pd_read_csv env _ (world s)) as [w1 [train|e]]; simpl.
  2:{ eexists [_; EvRaise e], nodf, nodf, ∅. split; [reflexivity|].
      eexists. reflexivity. }
  rewrite read_data_run. simpl.
  destruct (pd_read_csv env _ w1) as [w2 [test|e]]; simpl.
  2:{ eexists [_; _; EvRaise e], train, nodf, ∅. rewrite <- app_assoc.
      split; [reflexivity|]. eexists. reflexivity. }
  rewrite !validate_number_of_columns_run.
  rewrite validate_numerical_columns_cases.
  destruct (set_error (expected_numerical_columns self)) as [e|] eqn:Hset;
    simpl.
  { eexists [_; _; EvRaise e], train, test, ∅. rewrite <- !app_assoc.
    split; [reflexivity|]. eexists. reflexivity. }
  rewrite validate_numerical_columns_cases, Hset. simpl.
  match goal with
  | |- context [detect_dataset_drift env self train test default_threshold ?st] =>
      destruct (detect_dataset_drift_effects self train test default_threshold st)
        as (trd & report & Htr & Hpre & Hfull);
      destruct (detect_dataset_drift env self train test default_threshold st)
        as [s5 [v|e]]
  end; simpl in *.
  2:{ exists ([EvReadCsv (trained_file_path (data_ingestion_artifact self));
               EvReadCsv (test_file_path (data_ingestion_artifact self))] ++ trd),
        train, test, report.
      rewrite Htr, <- !app_assoc. split; [reflexivity|].
      rewrite effects_app. simpl. destruct Hpre as [k Hk].
      unfold run_events. simpl.
      destruct (effects trd) as [|e1 [|e2 [|e3 rest]]]; simpl in Hk;
        simplify_eq; eexists; reflexivity. }
  specialize (Hfull v eq_refl).
  unfold call.
  destruct (os_makedirs env _ true (world s5)) as [w6 [u|e]]; simpl.
  2:{ eexists ([_; _] ++ trd ++ [_; EvRaise e]), train, test, report.
      rewrite Htr, <- !app_assoc. split; [reflexivity|].
      rewrite !effects_app, Hfull. eexists. reflexivity. }
  destruct (to_csv env train _ false true w6) as [w7 [u7|e]]; simpl.
  2:{ eexists ([_; _] ++ trd ++ [_; _; EvRaise e]), train, test, report.
      rewrite Htr, <- !app_assoc. split; [reflexivity|].
      rewrite !effects_app, Hfull. eexists. reflexivity. }
  destruct (to_csv env test _ false true w7) as [w8 [u8|e]]; simpl.
  - eexists ([_; _] ++ trd ++ [_; _; _]), train, test, report.
    rewrite Htr, <- !app_assoc. split; [reflexivity|].
    rewrite !effects_app, Hfull. exists []. reflexivity.
  - eexists ([_; _] ++ trd ++ [_; _; _; EvRaise e]), train, test, report.
    rewrite Htr, <- !app_assoc. split; [reflexivity|].
    rewrite !effects_app, Hfull. exists []. reflexivity.
Qed.

End EffectOrder.

(* ===================================================================== *)
(** ** The threshold as a bound, and the order of the columns *)
(* ===================================================================== *)

Section MoreDriftBounds.
Context (env : Env).
Implicit Types (s : State env) (self : DataValidation)
  (base_df current_df : DataFrame) (threshold : float).

Lemma le_refl_number (x : float) : is_nan x = false -> le x x = true.
Proof.
  intros Hx. apply le_rank. repeat split; try exact Hx.
  unfold lex_le. destruct (rank x) as [[x1 x2] x3]. lia.
Qed.

(** X10.  The threshold is an inclusive bound: in the report written by a
    returning call of [detect_dataset_drift] whose threshold is a number,
    a column whose p-value equals the threshold is not flagged. *)
Theorem threshold_is_inclusive self base_df current_df threshold s s' v :
  detect_dataset_drift env self base_df current_df threshold s
    = (s', Return v) ->
  is_nan threshold = false ->
  exists report,
    last (trace s')
    = Some (EvWriteYaml
              (cfg_drift_report_file_path (data_validation_config self)) report)
    /\ forall c e, report !! c = Some e -> p_value e = threshold ->
         drift_status e = false.
Proof.
  intros H Hnum. apply detect_dataset_drift_Return in H.
  destruct H as (status & report & w1 & w2 & Hloop & _ & _ & -> & _).
  exists report. split.
  - simpl. rewrite last_app. reflexivity.
  - intros c e Hc Hp.
    destruct (drift_loop_entries env _ _ _ _ _ _ _ Hloop c e Hc) as [_ He].
    apply column_entry_status in He. rewrite He, Hp. unfold is_found.
    rewrite le_refl_number by exact Hnum. reflexivity.
Qed.

Lemma filter_label_missing (l : list (string * Series)) (c : string) :
  c ∉ fst <$> l -> filter (fun it => fst it = c) l = [].
Proof.
  induction l as [|[label col] rest IH]; intros Hc; [reflexivity|].
  simpl in Hc. apply not_elem_of_cons in Hc. destruct Hc as [Hne Hrest].
  rewrite filter_cons. simpl. destruct (decide (label = c)) as [->|_].
  - contradiction.
  - apply IH. exact Hrest.
Qed.

Lemma filter_label_length (l : list (string * Series)) (c : string) :
  NoDup (fst <$> l) -> length (filter (fun it => fst it = c) l) <= 1.
Proof.
  induction l as [|[label col] rest IH]; intros Hnd; simpl; [lia|].
  apply NoDup_cons in Hnd. destruct Hnd as [Hnotin Hnd].
  rewrite filter_cons. simpl. destruct (decide (label = c)) as [->|Hne].
  - rewrite filter_label_missing by exact Hnotin. simpl. lia.
  - apply IH. exact Hnd.
Qed.

(** With distinct labels, the selection under a label does not depend on
    the order of the columns of the frame. *)
Lemma labelled_perm (df df' : DataFrame) (c : string) :
  items df' ≡ₚ items df -> NoDup (columns df) ->
  labelled c df' = labelled c df.
Proof.
  intros Hp Hnd. unfold labelled. f_equal.
  assert (Hf : filter (fun it : string * Series => fst it = c) (items df')
               ≡ₚ filter (fun it => fst it = c) (items df))
    by (rewrite Hp; reflexivity).
  pose proof (filter_label_length (items df) c Hnd) as Hlen.
  destruct (filter (fun it => fst it = c) (items df)) as [|a [|b rest]].
  - apply Permutation_nil_r in Hf. exact Hf.
  - apply Permutation_singleton_r in Hf. exact Hf.
  - simpl in Hlen. lia.
Qed.

Lemma column_entry_perm base_df base_df' current_df threshold (c : string) :
  items base_df' ≡ₚ items base_df -> NoDup (columns base_df) ->
  column_entry env base_df' current_df threshold c
  = column_entry env base_df current_df threshold c.
Proof.
  intros Hp Hnd. unfold column_entry, getitem.
  rewrite (labelled_perm base_df base_df' c Hp Hnd). reflexivity.
Qed.

(** X11.  The order of the columns of the base frame has no part in a
    returning drift detection: a base frame with the same distinctly
    labelled columns in another order gives the same report, written to
    the same file, and the same final state. *)
Theorem column_order_irrelevant self base_df base_df' current_df threshold
    s s' v :
  items base_df' ≡ₚ items base_df -> NoDup (columns base_df) ->
  detect_dataset_drift env self base_df current_df threshold s
    = (s', Return v) ->
  detect_dataset_drift env self base_df' current_df threshold s
  = (s', Return v).
Proof.
  intros Hp Hnd H.
  pose proof H as Hret. apply detect_dataset_drift_Return in Hret.
  destruct Hret as (status & report & w1 & w2 & Hloop & _ & _ & _ & _).
  assert (Hcols : forall c, c ∈ columns base_df' <-> c ∈ columns base_df).
  { intros c. unfold columns. rewrite Hp. reflexivity. }
  destruct (drift_loop_report _ _ _ _ _ _ _ _ _ _ _ Hloop) as [Hin Hout].
  destruct (drift_loop_succeeds env (columns base_df') base_df' current_df
              threshold true ∅ s) as [[status' report'] Hloop'].
  { intros c Hc. rewrite (column_entry_perm _ _ _ _ _ Hp Hnd).
    apply Hin, Hcols, Hc. }
  destruct (drift_loop_report _ _ _ _ _ _ _ _ _ _ _ Hloop') as [Hin' Hout'].
  assert (Hrep : report' = report).
  { apply map_eq. intros c.
    destruct (decide (c ∈ columns base_df)) as [Hc|Hc].
    - destruct (Hin c Hc) as [_ ->].
      destruct (Hin' c (proj2 (Hcols c) Hc)) as [_ ->].
      apply column_entry_perm; assumption.
    - rewrite (Hout c Hc).
      apply Hout'. intros Hc'. apply Hc, Hcols, Hc'. }
  subst report'. rewrite <- H.
  unfold detect_dataset_drift, try_except, bind.
  rewrite Hloop, Hloop'. reflexivity.
Qed.

End MoreDriftBounds.

(* ===================================================================== *)
(** ** The further properties on concrete inputs *)
(* ===================================================================== *)

Section MoreExamples.
Import Demo Runs Expected More.

Lemma threshold_is_inclusive_witness :
  detect_dataset_drift env self people people_shifted f0_01 s_shifted
  = (fst (detect_dataset_drift env self people people_shifted f0_01 s_shifted),
     Return None)
  /\ is_nan f0_01 = false
  /\ exists report,
       last (trace (fst (detect_dataset_drift env self people people_shifted
                           f0_01 s_shifted)))
       = Some (EvWriteYaml report_path report)
       /\ forall c e, report !! c = Some e -> p_value e = f0_01 ->
            drift_status e = false.
Proof.
  split; [reflexivity|]. split; [reflexivity|].
  exact (threshold_is_inclusive env self people people_shifted f0_01
           s_shifted _ None eq_refl eq_refl).
Defined.

Lemma column_order_irrelevant_witness :
  items people_reordered ≡ₚ items people
  /\ NoDup (columns people)
  /\ detect_dataset_drift env self people people_shifted default_threshold
       s_shifted
     = (fst (detect_dataset_drift env self people people_shifted
               default_threshold s_shifted), Return None)
  /\ detect_dataset_drift env self people_reordered people_shifted
       default_threshold s_shifted
     = (fst (detect_dataset_drift env self people people_shifted
               default_threshold s_shifted), Return None).
Proof.
  assert (Hp : items people_reordered ≡ₚ items people) by apply perm_swap.
  assert (Hnd : NoDup (columns people))
    by (apply (bool_decide_unpack _); vm_compute; exact I).
  split; [exact Hp|]. split; [exact Hnd|]. split; [reflexivity|].
  exact (column_order_irrelevant env self people people_reordered
           people_shifted default_threshold s_shifted _ None Hp Hnd eq_refl).
Defined.

Lemma two_key_schema_accepts_two_columns_witness :
  dom (_schema_config self) = {[ "columns"; "numerical_columns" ]}
  /\ validate_number_of_columns env self pair_frame s0 = (s0, Return true)
  /\ validate_number_of_columns env self people s0 = (s0, Return false).
Proof.
  assert (Hdom : dom (_schema_config self) = {[ "columns"; "numerical_columns" ]})
    by (vm_compute; reflexivity).
  split; [exact Hdom|]. split.
  - exact (two_key_schema_accepts_two_columns env self pair_frame s0 Hdom).
  - exact (two_key_schema_accepts_two_columns env self people s0 Hdom).
Defined.

Lemma missing_column_aborts_detection_witness :
  ("income" ∈ columns people)
  /\ ("income" ∉ columns ages_only)
  /\ exists e,
       detect_dataset_drift env self people ages_only default_threshold s0
       = (after_raise s0 e, Raise (NetworkSecurityException e)).
Proof.
  assert (Hin : "income" ∈ columns people)
    by (apply list_elem_of_further, list_elem_of_here).
  assert (Hout : "income" ∉ columns ages_only)
    by (intros H; apply list_elem_of_singleton in H; discriminate).
  split; [exact Hin|]. split; [exact Hout|].
  exact (missing_column_aborts_detection env self people ages_only
           default_threshold s0 "income" Hin Hout).
Defined.

Lemma extra_columns_ignored_witness :
  (forall c, c ∈ columns people ->
     labelled c people_shifted = labelled c people_extra)
  /\ detect_dataset_drift env self people people_shifted default_threshold
       s_shifted
     = detect_dataset_drift env self people people_extra default_threshold
         s_shifted.
Proof.
  assert (Hagree : forall c, c ∈ columns people ->
            labelled c people_shifted = labelled c people_extra).
  { intros c Hc.
    repeat (apply elem_of_cons in Hc; destruct Hc as [->|Hc]; [reflexivity|]).
    inversion Hc. }
  split; [exact Hagree|].
  exact (extra_columns_ignored env self people people_shifted people_extra
           default_threshold s_shifted Hagree).
Defined.

Lemma detection_returns_witness :
  (forall c, c ∈ columns people ->
     is_Some (column_entry env people people_shifted default_threshold c))
  /\ exists report w2,
       detect_dataset_drift env self people people_shifted default_threshold
         s_shifted
       = ({| world := w2;
             trace := trace s_shifted ++
               [EvMakedirs "artifacts/drift_report" true;
                EvWriteYaml report_path report] |},
          Return None).
Proof.
  assert (Hcols : forall c, c ∈ columns people ->
            is_Some (column_entry env people people_shifted default_threshold c)).
  { intros c Hc.
    repeat (apply elem_of_cons in Hc;
            destruct Hc as [->|Hc]; [eexists; reflexivity|]).
    inversion Hc. }
  split; [exact Hcols|].
  refine (detection_returns env self people people_shifted default_threshold
            s_shifted (world s_shifted) Hcols eq_refl _).
  intros report. eexists. reflexivity.
Defined.

Lemma read_failure_aborts_witness :
  pd_read_csv env "artifacts/ingested/train.csv" (world s_no_train)
    = (disk_no_train,
       Raise (Builtin "FileNotFoundError" "artifacts/ingested/train.csv"))
  /\ initiate_data_validation env self s_no_train
     = (Build_State env disk_no_train
          [EvReadCsv "artifacts/ingested/train.csv";
           EvRaise (Builtin "FileNotFoundError" "artifacts/ingested/train.csv")],
        Raise (NetworkSecurityException (NetworkSecurityException
                 (Builtin "FileNotFoundError" "artifacts/ingested/train.csv"))))
  /\ pd_read_csv env "artifacts/ingested/test.csv" (world s_no_test)
     = (disk_no_test,
        Raise (Builtin "FileNotFoundError" "artifacts/ingested/test.csv"))
  /\ initiate_data_validation env self s_no_test
     = (Build_State env disk_no_test
          [EvReadCsv "artifacts/ingested/train.csv";
           EvReadCsv "artifacts/ingested/test.csv";
           EvRaise (Builtin "FileNotFoundError" "artifacts/ingested/test.csv")],
        Raise (NetworkSecurityException (NetworkSecurityException
                 (Builtin "FileNotFoundError" "artifacts/ingested/test.csv")))).
Proof.
  split; [reflexivity|]. split.
  - exact (proj1 (read_failure_aborts env self s_no_train) _ _ eq_refl).
  - split; [reflexivity|].
    exact (proj2 (read_failure_aborts env self s_no_test)
             disk_no_test people _ _ eq_refl eq_refl).
Defined.

Lemma malformed_schema_aborts_witness :
  set_error (expected_numerical_columns self_nested)
    = Some (Builtin "TypeError" "unhashable type: 'list'")
  /\ initiate_data_validation env self_nested s_shifted
     = ({| world := world s_shifted;
           trace := [EvReadCsv "artifacts/ingested/train.csv";
                     EvReadCsv "artifacts/ingested/test.csv";
                     EvRaise (Builtin "TypeError" "unhashable type: 'list'")] |},
        Raise (NetworkSecurityException (NetworkSecurityException
                 (Builtin "TypeError" "unhashable type: 'list'")))).
Proof.
  split; [reflexivity|].
  exact (malformed_schema_aborts env self_nested s_shifted
           (world s_shifted) people (world s_shifted) people_shifted _
           eq_refl eq_refl eq_refl).
Defined.


End MoreExamples.
